(** * Deal QA validator: a shallow embedding of [deal_qa_validator.py]

    The script reads deal rows from a spreadsheet, fetches each deal from a
    remote API, compares five fields and writes a PASS/FAIL/ERROR report.
    This development embeds its four functions ([normalize_date],
    [get_deal_details], [validate_deal], [main]) and settles the properties
    the specification states about them.

    Conventions.
    - A Python [str] is a [string]; its characters are read as the code
      points below 256.
    - The cells and labels of a spreadsheet are scalars ([pyval]); a JSON
      field holds a scalar, an array or an object ([jval]).
    - The libraries behave as they do under CPython 3.11 on Linux:
      [datetime.fromisoformat] has the grammar of that version and
      [strftime] is the one of glibc.
    - The network and the spreadsheet reader are the environment: the
      network is an oracle answering the n-th request, the reader hands over
      the frame as pandas presents it to the script (or fails).
    - Exceptions and [sys.exit] are explicit: [main] runs in a small
      state-and-error monad over the console and the request log. *)

From Stdlib Require Import NArith ZArith Ascii String.
From stdpp Require Import base option list strings gmap pretty.

Local Open Scope string_scope.
Local Open Scope N_scope.

(** ** Strings, as the script uses them *)

Module PyStr.

Definition is_digit (c : ascii) : bool :=
  (48 <=? N_of_ascii c) && (N_of_ascii c <=? 57).

Definition digit_val (c : ascii) : N := N_of_ascii c - 48.

Definition digit_char (n : N) : ascii := ascii_of_N (48 + n).

(** [c in s] for a one-character needle. *)
Fixpoint contains_char (c : ascii) (s : string) : bool :=
  match s with
  | "" => false
  | String a s' => if Ascii.eqb a c then true else contains_char c s'
  end.

(** [s.split(c)[0]]: the text before the first [c], all of [s] when
    there is none. *)
Fixpoint split_head (c : ascii) (s : string) : string :=
  match s with
  | "" => ""
  | String a s' => if Ascii.eqb a c then "" else String a (split_head c s')
  end.

(** [str.isspace] on one character: the ASCII controls 9-13 and 28-31,
    the blank, NEL (133) and the no-break space (160). *)
Definition isspace (c : ascii) : bool :=
  let n := N_of_ascii c in
  ((9 <=? n) && (n <=? 13)) || ((28 <=? n) && (n <=? 32))
  || (n =? 133) || (n =? 160).

Fixpoint lstrip (s : string) : string :=
  match s with
  | "" => ""
  | String a s' => if isspace a then lstrip s' else s
  end.

(** [rstrip] keeps a character when it is not a space or when something
    survives to its right. *)
Fixpoint rstrip (s : string) : string :=
  match s with
  | "" => ""
  | String a s' =>
      match rstrip s' with
      | "" => if isspace a then "" else String a ""
      | r => String a r
      end
  end.

Definition strip (s : string) : string := rstrip (lstrip s).

(** [str.lower] on the ASCII letters; no other character lowers to an
    ASCII letter or to a blank. *)
Definition lower_char (c : ascii) : ascii :=
  let n := N_of_ascii c in
  if (65 <=? n) && (n <=? 90) then ascii_of_N (n + 32) else c.

Fixpoint lower (s : string) : string :=
  match s with
  | "" => ""
  | String a s' => String (lower_char a) (lower s')
  end.

(** [s.startswith(p)] *)
Fixpoint startswith (p s : string) : bool :=
  match p, s with
  | "", _ => true
  | String a p', String b s' => Ascii.eqb a b && startswith p' s'
  | String _ _, "" => false
  end.

(** ["; ".join(l)] *)
Fixpoint join (sep : string) (l : list string) : string :=
  match l with
  | [] => ""
  | [x] => x
  | x :: l' => x +:+ sep +:+ join sep l'
  end.

(** Zero-padded decimal fields, as [%02d], [%04d] and [%06d] print them. *)
Definition pad2 (n : N) : string :=
  String (digit_char (n / 10 mod 10)) (String (digit_char (n mod 10)) "").

Definition pad4 (n : N) : string := pad2 (n / 100) +:+ pad2 (n mod 100).

Definition pad6 (n : N) : string := pad2 (n / 10000) +:+ pad4 (n mod 10000).

End PyStr.

(** ** Dates and times *)

Module PyDate.
Import PyStr.

(** A [datetime] (or pandas [Timestamp]) value.  A time-zone offset is
    checked by the parser but not kept: [strftime('%Y-%m-%d')] does not
    read it and spreadsheet timestamps are naive. *)
Record datetime := mk_datetime {
  year : N; month : N; day : N;
  hour : N; minute : N; second : N; microsecond : N
}.

Definition is_leap (y : N) : bool :=
  ((y mod 4 =? 0) && negb (y mod 100 =? 0)) || (y mod 400 =? 0).

Definition days_in_month (y m : N) : N :=
  match m with
  | 2 => if is_leap y then 29 else 28
  | 4 | 6 | 9 | 11 => 30
  | _ => 31
  end.

(** The range check of the [datetime] constructor. *)
Definition valid_datetime (d : datetime) : bool :=
  (1 <=? year d) && (year d <=? 9999)
  && (1 <=? month d) && (month d <=? 12)
  && (1 <=? day d) && (day d <=? days_in_month (year d) (month d))
  && (hour d <? 24) && (minute d <? 60) && (second d <? 60)
  && (microsecond d <? 1000000).

(** Two decimal digits off the front of a string. *)
Definition take2 (s : string) : option (N * string) :=
  match s with
  | String a (String b r) =>
      if is_digit a && is_digit b
      then Some (10 * digit_val a + digit_val b, r) else None
  | _ => None
  end.

(** *** [datetime.fromisoformat]

    The parser is the one of CPython 3.11 ([datetime_fromisoformat] and
    its helpers in [_datetimemodule.c]).  It works on the UTF-8 bytes of
    the text, a C string that ends with a NUL byte. *)

(** The UTF-8 bytes of a text of code points below 256. *)
Fixpoint utf8 (s : string) : string :=
  match s with
  | "" => ""
  | String c s' =>
      let n := N_of_ascii c in
      if n <? 128 then String c (utf8 s')
      else String (ascii_of_N (192 + n / 64))
             (String (ascii_of_N (128 + n mod 64)) (utf8 s'))
  end.

(** The byte at a position of the C string: NUL at its end. *)
Definition byte_at (b : string) (i : nat) : ascii :=
  default "000"%char (String.get i b).

(** [parse_digits]: [n] decimal digits from position [p] on; the position
    after them and their value, on top of [acc]. *)
Fixpoint parse_digits (b : string) (p n : nat) (acc : N) : option (nat * N) :=
  match n with
  | O => Some (p, acc)
  | S n' =>
      let c := byte_at b p in
      if is_digit c then parse_digits b (S p) n' (10 * acc + digit_val c)
      else None
  end.

(** The position after the digits that start at [p]. *)
Fixpoint skip_digits (fuel : nat) (b : string) (p : nat) : nat :=
  match fuel with
  | O => p
  | S fuel' => if is_digit (byte_at b p) then skip_digits fuel' b (S p) else p
  end.

(** [_find_isoformat_datetime_separator]: where the date ends, told from
    the bytes 4 and 5: YYYY-MM-DD (10), YYYYMMDD (8), YYYY-Www (8),
    YYYY-Www-D (10), YYYYWww (7), YYYYWwwD (8). *)
Definition find_isoformat_datetime_separator (b : string) : option nat :=
  let len := String.length b in
  if (len =? 7)%nat then Some 7%nat
  else if Ascii.eqb (byte_at b 4) "-" then
    if Ascii.eqb (byte_at b 5) "W" then
      if (len <? 8)%nat then None
      else if (8 <? len)%nat && Ascii.eqb (byte_at b 8) "-" then
        if (len =? 9)%nat then None
        else if (10 <? len)%nat && is_digit (byte_at b 10) then Some 8%nat
        else Some 10%nat
      else Some 8%nat
    else Some 10%nat
  else if Ascii.eqb (byte_at b 4) "W" then
    let idx := skip_digits (len - 7) b 7 in
    if (idx <? 9)%nat then Some idx
    else if Nat.even idx then Some 7%nat
    else Some 8%nat
  else Some 8%nat.

(** The calendar arithmetic behind ISO week dates, on C integers: the
    divisions truncate. *)
Module Cal.
Local Open Scope Z_scope.

Definition is_leap (y : Z) : bool :=
  (Z.rem y 4 =? 0) && (negb (Z.rem y 100 =? 0) || (Z.rem y 400 =? 0)).

Definition days_before_month_table (m : Z) : Z :=
  match m with
  | 1 => 0 | 2 => 31 | 3 => 59 | 4 => 90 | 5 => 120 | 6 => 151
  | 7 => 181 | 8 => 212 | 9 => 243 | 10 => 273 | 11 => 304 | 12 => 334
  | _ => 0
  end.

Definition days_in_month (y m : Z) : Z :=
  match m with
  | 2 => if is_leap y then 29 else 28
  | 4 | 6 | 9 | 11 => 30
  | 1 | 3 | 5 | 7 | 8 | 10 | 12 => 31
  | _ => 0
  end.

Definition days_before_year (year : Z) : Z :=
  let y := year - 1 in
  y * 365 + Z.quot y 4 - Z.quot y 100 + Z.quot y 400.

Definition ymd_to_ord (y m d : Z) : Z :=
  days_before_year y
  + (days_before_month_table m + if (2 <? m) && is_leap y then 1 else 0)
  + d.

Definition weekday (y m d : Z) : Z := Z.rem (ymd_to_ord y m d + 6) 7.

Definition iso_week1_monday (y : Z) : Z :=
  let first_day := ymd_to_ord y 1 1 in
  let first_weekday := Z.rem (first_day + 6) 7 in
  let week1_monday := first_day - first_weekday in
  if 3 <? first_weekday then week1_monday + 7 else week1_monday.

Definition ord_to_ymd (ordinal : Z) : Z * Z * Z :=
  let ordinal := ordinal - 1 in
  let n400 := Z.quot ordinal 146097 in
  let n := Z.rem ordinal 146097 in
  let n100 := Z.quot n 36524 in
  let n := Z.rem n 36524 in
  let n4 := Z.quot n 1461 in
  let n := Z.rem n 1461 in
  let n1 := Z.quot n 365 in
  let n := Z.rem n 365 in
  let year := n400 * 400 + 1 + n100 * 100 + n4 * 4 + n1 in
  if (n1 =? 4) || (n100 =? 4) then (year - 1, 12, 31)
  else
    let leapyear := (n1 =? 3) && (negb (n4 =? 24) || (n100 =? 3)) in
    let month := Z.shiftr (n + 50) 5 in
    let preceding :=
      days_before_month_table month
      + (if (2 <? month) && leapyear then 1 else 0) in
    if n <? preceding then
      let month := month - 1 in
      let preceding := preceding - days_in_month year month in
      (year, month, n - preceding + 1)
    else (year, month, n - preceding + 1).

Definition iso_to_ymd (iso_year iso_week iso_day : Z) : option (Z * Z * Z) :=
  let week_ok :=
    if (iso_week <=? 0) || (53 <=? iso_week) then
      if iso_week =? 53 then
        let first_weekday := weekday iso_year 1 1 in
        (first_weekday =? 3) || ((first_weekday =? 2) && is_leap iso_year)
      else false
    else true in
  if negb week_ok then None
  else if (iso_day <=? 0) || (8 <=? iso_day) then None
  else
    let day_1 := iso_week1_monday iso_year in
    let day_offset := (iso_week - 1) * 7 + iso_day - 1 in
    Some (ord_to_ymd (day_1 + day_offset)).

End Cal.

(** [parse_isoformat_date]: the date in the first [len] bytes. *)
Definition parse_isoformat_date (b : string) (len : nat)
  : option (Z * Z * Z) :=
  '(p, year) ← parse_digits b 0 4 0;
  let uses_separator := Ascii.eqb (byte_at b p) "-" in
  let p := if uses_separator then S p else p in
  if Ascii.eqb (byte_at b p) "W" then
    '(p, iso_week) ← parse_digits b (S p) 2 0;
    if (p <? len)%nat then
      if uses_separator && negb (Ascii.eqb (byte_at b p) "-") then None
      else
        let p := if uses_separator then S p else p in
        '(_, iso_day) ← parse_digits b p 1 0;
        Cal.iso_to_ymd (Z.of_N year) (Z.of_N iso_week) (Z.of_N iso_day)
    else Cal.iso_to_ymd (Z.of_N year) (Z.of_N iso_week) 1
  else
    '(p, month) ← parse_digits b p 2 0;
    if uses_separator && negb (Ascii.eqb (byte_at b p) "-") then None
    else
      let p := if uses_separator then S p else p in
      '(_, day) ← parse_digits b p 2 0;
      Some (Z.of_N year, Z.of_N month, Z.of_N day).

(** What one, two, ... five digits of a fraction count in microseconds. *)
Definition fraction_correction (to_parse : nat) : N :=
  match to_parse with
  | 1%nat => 100000 | 2%nat => 10000 | 3%nat => 1000
  | 4%nat => 100 | 5%nat => 10 | _ => 1
  end.

(** The fraction of a second that starts at [p]: at most six digits count,
    further digits are skipped; the flag tells whether the C string goes
    on after them. *)
Definition parse_fraction (b : string) (p p_end : nat) : option (N * bool) :=
  let to_parse := Nat.min (p_end - p) 6 in
  '(p, us) ← parse_digits b p to_parse 0;
  let p := skip_digits (String.length b) b p in
  Some (us * fraction_correction to_parse,
        negb (Ascii.eqb (byte_at b p) "000")).

(** The loop of [parse_hh_mm_ss_ff] over hour, minute and second, [left]
    of them still to read: [HH[:?MM[:?SS[{.,}f+]]]] between [p] and
    [p_end]. *)
Fixpoint parse_hh_mm_ss (left : nat) (b : string) (p p_end : nat)
    (has_separator : option bool) (vals : list N)
  : option (list N * N * bool) :=
  match left with
  | O => '(us, rest) ← parse_fraction b p p_end; Some (vals, us, rest)
  | S left' =>
      '(p, v) ← parse_digits b p 2 0;
      let vals := (vals ++ [v])%list in
      let c := byte_at b p in
      let p := S p in
      let has_separator := default (Ascii.eqb c ":") has_separator in
      if (p_end <=? p)%nat then
        Some (vals, 0, negb (Ascii.eqb c "000"))
      else if has_separator && Ascii.eqb c ":" then
        parse_hh_mm_ss left' b p p_end (Some has_separator) vals
      else if Ascii.eqb c "." || Ascii.eqb c "," then
        '(us, rest) ← parse_fraction b p p_end; Some (vals, us, rest)
      else if negb has_separator then
        parse_hh_mm_ss left' b (pred p) p_end (Some has_separator) vals
      else None
  end.

(** [parse_hh_mm_ss_ff]: the four fields and whether text is left over. *)
Definition parse_hh_mm_ss_ff (b : string) (p p_end : nat)
  : option (N * N * N * N * bool) :=
  '(vals, us, rest) ← parse_hh_mm_ss 3 b p p_end None [];
  Some (default 0 (vals !! 0%nat), default 0 (vals !! 1%nat),
        default 0 (vals !! 2%nat), us, rest).

Definition is_tz_byte (c : ascii) : bool :=
  Ascii.eqb c "Z" || Ascii.eqb c "+" || Ascii.eqb c "-".

(** The first position from [p] on that holds [Z], [+] or [-], or the end;
    the byte at [p] is looked at even when no text is left. *)
Fixpoint find_tz (fuel : nat) (b : string) (p p_end : nat) : nat :=
  if is_tz_byte (byte_at b p) then p
  else
    match fuel with
    | O => S p
    | S fuel' =>
        if (S p <? p_end)%nat then find_tz fuel' b (S p) p_end else S p
    end.

(** [parse_isoformat_time] on the [len] bytes from [p] on:
    [HH[:?MM[:?SS[{.,}f+]]]] and then nothing, [Z], or a sign and an offset
    of the same form that stays strictly inside a day. *)
Definition parse_isoformat_time (b : string) (p len : nat)
  : option (N * N * N * N) :=
  let p_end := (p + len)%nat in
  let tzinfo_pos := find_tz len b p p_end in
  '(h, m, s, us, rest) ← parse_hh_mm_ss_ff b p tzinfo_pos;
  if (tzinfo_pos =? p_end)%nat then
    if (rest : bool) then None else Some (h, m, s, us)
  else if Ascii.eqb (byte_at b tzinfo_pos) "Z" then
    if Ascii.eqb (byte_at b (S tzinfo_pos)) "000" then Some (h, m, s, us)
    else None
  else
    '(tzh, tzm, tzs, tzus, rest) ← parse_hh_mm_ss_ff b (S tzinfo_pos) p_end;
    if (rest : bool) then None
    else if (tzh * 3600 + tzm * 60 + tzs) * 1000000 + tzus
            <? 86400 * 1000000
    then Some (h, m, s, us)
    else None.

(** The number of bytes of the UTF-8 character whose first byte is [c]. *)
Definition utf8_width (c : ascii) : nat :=
  let n := N_of_ascii c in
  if n <? 128 then 1%nat
  else if N.land n 240 =? 224 then 3%nat
  else if N.land n 240 =? 240 then 4%nat
  else 2%nat.

(** [datetime.fromisoformat(s)]; [None] stands for its [ValueError].  After
    the date comes nothing, or one character of any kind and a time. *)
Definition fromisoformat (s : string) : option datetime :=
  let b := utf8 s in
  let len := String.length b in
  if (len <? 7)%nat then None
  else
    separator_location ← find_isoformat_datetime_separator b;
    '(y, m, d) ← parse_isoformat_date b separator_location;
    '(hh, mi, ss, us) ←
      (if (separator_location <? len)%nat then
         let p := (separator_location
                   + utf8_width (byte_at b separator_location))%nat in
         parse_isoformat_time b p (len - p)
       else Some (0, 0, 0, 0));
    if (1 <=? y)%Z && (1 <=? m)%Z && (1 <=? d)%Z then
      let dt := mk_datetime (Z.to_N y) (Z.to_N m) (Z.to_N d) hh mi ss us in
      if valid_datetime dt then Some dt else None
    else None.

(** [dt.strftime('%Y-%m-%d')] as the C library of Linux (glibc) prints it:
    [%Y] is the year in decimal with no padding, so a year below 1000
    comes out with fewer than four digits; [%m] and [%d] have two
    digits. *)
Definition strftime_ymd (d : datetime) : string :=
  pretty (year d) +:+ "-" +:+ pad2 (month d) +:+ "-" +:+ pad2 (day d).

(** [str(dt)]: the ISO text with a blank between date and time; here the
    year always has four digits. *)
Definition str_datetime (d : datetime) : string :=
  pad4 (year d) +:+ "-" +:+ pad2 (month d) +:+ "-" +:+ pad2 (day d)
    +:+ " " +:+ pad2 (hour d) +:+ ":" +:+ pad2 (minute d)
    +:+ ":" +:+ pad2 (second d)
    +:+ (if microsecond d =? 0 then "" else "." +:+ pad6 (microsecond d)).

End PyDate.

(** ** Python values and exceptions *)

Import PyStr PyDate.

(** The scalars a spreadsheet cell or a JSON field can hold.  A float other
    than nan is kept by the text [str()] prints for it, the only thing the
    script ever asks of one. *)
Inductive pyval :=
| PNone                       (* None, JSON null *)
| PNaN                        (* float nan: an empty cell *)
| PNaT                        (* pandas NaT *)
| PStr (s : string)
| PInt (z : Z)
| PFloat (shown : string)
| PBool (b : bool)
| PTimestamp (d : datetime).

#[global] Instance datetime_eq_dec : EqDecision datetime.
Proof. solve_decision. Defined.

#[global] Instance pyval_eq_dec : EqDecision pyval.
Proof. solve_decision. Defined.

(** [pd.isna] / [pd.isnull] on a scalar. *)
Definition isna (v : pyval) : bool :=
  match v with
  | PNone | PNaN | PNaT => true
  | _ => false
  end.

Definition notnull (v : pyval) : bool := negb (isna v).

(** [v is not None] *)
Definition is_not_None (v : pyval) : bool :=
  match v with
  | PNone => false
  | _ => true
  end.

(** [str(v)] *)
Definition str (v : pyval) : string :=
  match v with
  | PNone => "None"
  | PNaN => "nan"
  | PNaT => "NaT"
  | PStr s => s
  | PInt z => pretty z
  | PFloat shown => shown
  | PBool true => "True"
  | PBool false => "False"
  | PTimestamp d => str_datetime d
  end.

(** The exceptions that can arise; a message is kept where the script
    prints it. *)
Inductive exn :=
| ValueError
| AttributeError
| RequestException (msg : string)   (* requests.exceptions.RequestException *)
| ReadError (msg : string)          (* whatever pd.read_excel raises *)
| SystemExit (code : Z).            (* sys.exit(code) *)

(** [except Exception] catches everything but [SystemExit]. *)
Definition is_Exception (e : exn) : bool :=
  match e with
  | SystemExit _ => false
  | _ => true
  end.

(** A computation that returns or raises. *)
Inductive res (A : Type) :=
| Ret (a : A)
| Raise (e : exn).
Arguments Ret {A} a.
Arguments Raise {A} e.

#[global] Instance res_ret : MRet res := λ A a, Ret a.

#[global] Instance res_bind : MBind res := λ A B k m,
  match m with
  | Ret a => k a
  | Raise e => Raise e
  end.

(** [try: m except <catch>: h] *)
Definition try_except {A} (m : res A) (catch : exn → bool) (h : exn → res A)
  : res A :=
  match m with
  | Ret a => Ret a
  | Raise e => if catch e then h e else Raise e
  end.

(** [repr(s)] of a string: quoted, with the quote, the backslash and the
    unprintable characters escaped. *)
Definition hex_char (n : N) : ascii :=
  if n <? 10 then ascii_of_N (48 + n) else ascii_of_N (87 + n).

Definition repr_char (quote c : ascii) : string :=
  let n := N_of_ascii c in
  if Ascii.eqb c "\" then "\\"
  else if Ascii.eqb c quote then String "\" (String quote "")
  else if n =? 10 then "\n"
  else if n =? 13 then "\r"
  else if n =? 9 then "\t"
  else if (n <? 32) || ((127 <=? n) && (n <=? 160)) || (n =? 173)
  then String "\" (String "x" (String (hex_char (n / 16))
                                 (String (hex_char (n mod 16)) "")))
  else String c "".

Fixpoint repr_chars (quote : ascii) (s : string) : string :=
  match s with
  | "" => ""
  | String c s' => repr_char quote c +:+ repr_chars quote s'
  end.

Definition double_quote : ascii := ascii_of_N 34.

Definition repr_str (s : string) : string :=
  let quote : ascii :=
    if contains_char "'" s && negb (contains_char double_quote s)
    then double_quote
    else "'"%char in
  String quote (repr_chars quote s) +:+ String quote "".

(** [repr(v)] *)
Definition repr (v : pyval) : string :=
  match v with
  | PStr s => repr_str s
  | PTimestamp d => "Timestamp('" +:+ str_datetime d +:+ "')"
  | _ => str v
  end.

(** [repr] of a list, as [print] shows [df.columns.tolist()]. *)
Definition repr_list (l : list pyval) : string :=
  "[" +:+ join ", " (repr <$> l) +:+ "]".

(** [repr] of a dict, in the order of its items. *)
Definition repr_dict (items : list (string * pyval)) : string :=
  "{" +:+ join ", " ((λ kv, repr_str kv.1 +:+ ": " +:+ repr kv.2) <$> items)
      +:+ "}".

(** What a JSON field holds once [response.json()] has decoded it: a
    scalar, a list (a JSON array) or a dict (a JSON object, its items in
    order).  Arrays and objects are taken one level deep, their members
    scalars.  The empty array is left out: whether numpy gives the truth
    value of an empty array or refuses depends on its version. *)
Inductive jval :=
| JVal (v : pyval)
| JList (first : pyval) (others : list pyval)
| JDict (items : list (string * pyval)).

Coercion JVal : pyval >-> jval.

#[global] Instance jval_eq_dec : EqDecision jval.
Proof. solve_decision. Defined.

(** The members of a list. *)
Definition members (x : jval) : list pyval :=
  match x with
  | JList v vs => v :: vs
  | _ => []
  end.

(** [if pd.isna(x):], the truth test of what [pd.isna] returns.  For a
    scalar that is a bool.  For a list it is an array of bools, one per
    member, and the truth test of an array of two or more raises
    ValueError ("The truth value of an array with more than one element
    is ambiguous"); an array of one has the truth value of its member.
    For a dict it is False. *)
Definition isna_test (x : jval) : res bool :=
  match x with
  | JVal v => Ret (isna v)
  | JList v [] => Ret (isna v)
  | JList _ (_ :: _) => Raise ValueError
  | JDict _ => Ret false
  end.

(** [x is not None] *)
Definition jval_is_not_None (x : jval) : bool :=
  match x with
  | JVal v => is_not_None v
  | _ => true
  end.

(** [str(x)] *)
Definition jval_str (x : jval) : string :=
  match x with
  | JVal v => str v
  | JList v vs => repr_list (v :: vs)
  | JDict items => repr_dict items
  end.

(** ** [normalize_date] *)

(** [datetime.fromisoformat(s)], raising [ValueError] on a bad string. *)
Definition datetime_fromisoformat (s : string) : res datetime :=
  match fromisoformat s with
  | Some d => Ret d
  | None => Raise ValueError
  end.

(** [v.strftime('%Y-%m-%d')]: only date values have the method. *)
Definition strftime (v : jval) : res string :=
  match v with
  | JVal (PTimestamp d) => Ret (strftime_ymd d)
  | _ => Raise AttributeError
  end.

(** The truth test of [pd.isna] comes before the [try] and is not
    covered by it. *)
Definition normalize_date (date_obj : jval) : res pyval :=
  missing ← isna_test date_obj;
  if (missing : bool) then Ret PNone
  else
    try_except
      (match date_obj with
       | JVal (PStr s) =>
           if contains_char "T" s then Ret (PStr (split_head "T" s))
           else if contains_char " " s then Ret (PStr (split_head " " s))
           else d ← datetime_fromisoformat s; Ret (PStr (strftime_ymd d))
       | _ => s ← strftime date_obj; Ret (PStr s)
       end)
      is_Exception
      (λ _, Ret (PStr (jval_str date_obj))).

(** ** [validate_deal] *)

(** A spreadsheet row as [iterrows] yields it: the cells in column order,
    each under its column label. *)
Abbreviation Row := (list (pyval * pyval)).

(** What [row.get(key)] hands back: the cell, [None] when no column has the
    label, a sub-series when several have it. *)
Inductive got :=
| Scalar (v : pyval)
| SubSeries (vs : list pyval).

Definition Series_get (row : Row) (key : string) : got :=
  match filter (λ lv, lv.1 = PStr key) row with
  | [] => Scalar PNone
  | [lv] => Scalar lv.2
  | lvs => SubSeries (lvs.*2)
  end.

(** The first thing the script does with a fetched cell is a truth test of
    [pd.isna] or [pd.notnull] on it; on a sub-series that test raises. *)
Definition scalar_of (g : got) : res pyval :=
  match g with
  | Scalar v => Ret v
  | SubSeries _ => Raise ValueError
  end.

(** What [response.json()] returns: the document, a dict of fields when
    it is a JSON object. *)
Inductive pyobj :=
| ODict (d : gmap string jval)
| OList (items : list pyval)
| OVal (v : pyval).

(** [api_data.get(field)]: only a dict has the method. *)
Definition obj_get (o : pyobj) (field : string) : res jval :=
  match o with
  | ODict d => Ret (default (JVal PNone) (d !! field))
  | _ => Raise AttributeError
  end.

Record check := mk_check {
  excel_col : string;
  api_field : string;
  label : string;
  is_date : bool
}.

Definition checks : list check := [
  mk_check "Deal Name" "name" "Deal Name" false;
  mk_check "CPM (INR)" "cpm" "CPM" false;
  mk_check "Start Date (MM-DD-YY)" "startDate" "Start Date" true;
  mk_check "End date (MM-DD-YY)" "endDate" "End Date" true;
  mk_check "Budget (INR)" "budget" "Budget" false
].

Definition discrepancy (c : check) (str_excel str_api : string) : string :=
  label c +:+ ": Expected '" +:+ str_excel +:+ "', Found '" +:+ str_api +:+ "'".

(** One turn of the loop over the checks; [discrepancies] is the list
    built so far. *)
Definition validate_check (row : Row) (api_data : pyobj) (c : check)
    (discrepancies : list string) : res (list string) :=
  let excel_got := Series_get row (excel_col c) in
  api_val ← obj_get api_data (api_field c);
  excel_val ← scalar_of excel_got;
  '(excel_val, api_val) ←
    (if is_date c then
       e ← normalize_date (JVal excel_val);
       a ← normalize_date api_val;
       Ret (e, JVal a)
     else Ret (excel_val, api_val));
  let str_excel := if notnull excel_val then str excel_val else "" in
  let str_api := if jval_is_not_None api_val then jval_str api_val else "" in
  if bool_decide (str_excel ≠ str_api)
  then Ret (discrepancies ++ [discrepancy c str_excel str_api])%list
  else Ret discrepancies.

Fixpoint validate_loop (row : Row) (api_data : pyobj) (cs : list check)
    (discrepancies : list string) : res (list string) :=
  match cs with
  | [] => Ret discrepancies
  | c :: cs' =>
      discrepancies ← validate_check row api_data c discrepancies;
      validate_loop row api_data cs' discrepancies
  end.

Definition validate_deal (row : Row) (api_data : pyobj) : res (list string) :=
  validate_loop row api_data checks [].

(** ** The world of the script: console, network, files *)

(** A table as the script gets to see it: [columns] are the labels,
    [df.columns], and [data] are the rows of cells of [df.values], the
    array from which [iterrows] makes its rows.  In that array pandas has
    brought the columns to one common type: when every column is numeric
    and one of them holds floats, an integer cell is there as a float
    (138752 as 138752.0); as soon as one column holds text, every cell is
    there as it was loaded.  The report, whose Status column is text, is
    written as it stands. *)
Record DataFrame := mk_df {
  columns : list pyval;
  data : list (list pyval)
}.

Record request := mk_request {
  req_url : string;
  req_headers : gmap string string
}.

(** The decoded body of a response: a JSON document or text that is not
    JSON (with the decoder's complaint). *)
Inductive json_body :=
| NotJson (msg : string)
| Json (o : pyobj).

Record response := mk_response {
  status_code : Z;
  reason : string;
  url : string;
  body : json_body
}.

(** What the network does with a request: no response at all (connection
    refused, time-out, ...) or a response.  [final_url] is the address
    the response reports as its own, [response.url]: the url asked for as
    [requests] has percent-encoded it, or the last location when
    redirects were followed. *)
Inductive reply :=
| NoResponse (msg : string)
| Replied (status : Z) (reason_phrase : string) (final_url : string)
    (content : json_body).

Record world := mk_world {
  console : list string;
  sent : list request;
  files : gmap string DataFrame
}.

Definition M (A : Type) : Type := world → res A * world.

#[global] Instance M_ret : MRet M := λ A a w, (Ret a, w).

#[global] Instance M_bind : MBind M := λ A B k m w,
  match m w with
  | (Ret a, w') => k a w'
  | (Raise e, w') => (Raise e, w')
  end.

Definition lift {A} (r : res A) : M A := λ w, (r, w).

Definition raise {A} (e : exn) : M A := λ w, (Raise e, w).

Definition try_except_M {A} (m : M A) (catch : exn → bool) (h : exn → M A)
  : M A := λ w,
  match m w with
  | (Ret a, w') => (Ret a, w')
  | (Raise e, w') => if catch e then h e w' else (Raise e, w')
  end.

Definition print (line : string) : M unit := λ w,
  (Ret (), mk_world (console w ++ [line]) (sent w) (files w)).

Definition sys_exit {A} (code : Z) : M A := raise (SystemExit code).

(** [df.to_excel(path, index=False)]: the sheet at [path] is replaced. *)
Definition to_excel (df : DataFrame) (path : string) : M unit := λ w,
  (Ret (), mk_world (console w) (sent w) (<[path := df]> (files w))).

(** [str(e)], for the exceptions whose text the script prints. *)
Definition exn_text (e : exn) : string :=
  match e with
  | RequestException msg | ReadError msg => msg
  | _ => ""
  end.

Definition is_RequestException (e : exn) : bool :=
  match e with
  | RequestException _ => true
  | _ => false
  end.

(** [response.raise_for_status()]: an [HTTPError] for the 4xx and 5xx
    status codes, nothing for any other. *)
Definition raise_for_status (r : response) : res unit :=
  if bool_decide (400 ≤ status_code r < 500)%Z then
    Raise (RequestException (pretty (status_code r) +:+ " Client Error: "
                               +:+ reason r +:+ " for url: " +:+ url r))
  else if bool_decide (500 ≤ status_code r < 600)%Z then
    Raise (RequestException (pretty (status_code r) +:+ " Server Error: "
                               +:+ reason r +:+ " for url: " +:+ url r))
  else Ret ().

(** [response.json()]: a body that is not JSON raises the library's
    [JSONDecodeError], a [RequestException]. *)
Definition response_json (r : response) : res pyobj :=
  match body r with
  | Json o => Ret o
  | NotJson msg => Raise (RequestException msg)
  end.

(** Python truth value of a decoded JSON document. *)
Definition truthy (o : pyobj) : bool :=
  match o with
  | ODict d => bool_decide (d ≠ ∅)
  | OList items => bool_decide (items ≠ [])
  | OVal PNone => false
  | OVal (PStr s) => bool_decide (s ≠ "")
  | OVal (PInt z) => bool_decide (z ≠ 0%Z)
  | OVal (PFloat shown) => bool_decide (shown ≠ "0.0" ∧ shown ≠ "-0.0")
  | OVal (PBool b) => b
  | OVal _ => true
  end.

Definition API_BASE_URL : string := "https://api.pubmatic.com".

(** [API_ENDPOINT.format(dealid=deal_id)] *)
Definition API_ENDPOINT (dealid : pyval) : string :=
  "/v3/pmp/deals/" +:+ str dealid.

(** The headers [get_deal_details] ends up sending. *)
Definition request_headers (auth_token : string) : gmap string string :=
  let headers : gmap string string :=
    {[ "Authorization" := auth_token; "Content-Type" := "application/json" ]} in
  if negb (startswith "bearer " (lower (headers !!! "Authorization")))
  then <["Authorization" := "Bearer " +:+ (headers !!! "Authorization")]> headers
  else headers.

Inductive header_arg :=
| HeaderNone               (* header=None *)
| HeaderRow (i : nat)      (* header=i *)
| HeaderDefault.           (* no header argument *)

(** [needle in s] *)
Fixpoint contains_substr (needle s : string) : bool :=
  startswith needle s ||
  match s with
  | "" => false
  | String _ s' => contains_substr needle s'
  end.

(** [df.iterrows()]: one Series for each row of [df.values], its cells
    under the column labels. *)
Definition iterrows (df : DataFrame) : list Row :=
  (λ cells, zip (columns df) cells) <$> data df.

(** [row.astype(str).str.contains("Deal ID", case=False).any()] on a row of
    the raw sheet.  The search is one for the regular expression "Deal ID"
    under [re.IGNORECASE]; on texts of code points below 256 that is the
    search for "deal id" in the lowered text.  (Beyond them the two
    dotless and dotted i of Turkish, U+0131 and U+0130, match too.) *)
Definition mentions_deal_id (cells : list pyval) : bool :=
  existsb (λ v, contains_substr (lower "Deal ID") (lower (str v))) cells.

(** The index of the first raw row that mentions the marker. *)
Fixpoint find_header_row (i : nat) (rows : list (list pyval)) : option nat :=
  match rows with
  | [] => None
  | cells :: rows' =>
      if mentions_deal_id cells then Some i else find_header_row (S i) rows'
  end.

(** [lambda x: str(x).strip() if pd.notnull(x) else x] *)
Definition clean_label (x : pyval) : pyval :=
  if notnull x then PStr (strip (str x)) else x.

(** [df.columns = df.columns.map(...)] *)
Definition clean_columns (df : DataFrame) : DataFrame :=
  mk_df (clean_label <$> columns df) (data df).

(** A result record, a Python dict in insertion order. *)
Abbreviation record := (list (string * pyval)).

Definition record_get (r : record) (key : string) : option pyval :=
  match list_find (λ kv, kv.1 = key) r with
  | Some (_, kv) => Some kv.2
  | None => None
  end.

(** The union of the keys of the records, in order of first appearance. *)
Definition add_key (seen : list string) (k : string) : list string :=
  if bool_decide (k ∈ seen) then seen else (seen ++ [k])%list.

Definition record_keys (records : list record) : list string :=
  foldl add_key [] (concat ((λ r : record, r.*1) <$> records)).

(** [pd.DataFrame(records)]: one column per key met in the records, one
    row per record, nan where a record lacks a key. *)
Definition DataFrame_of_records (records : list record) : DataFrame :=
  let keys := record_keys records in
  mk_df (PStr <$> keys)
        ((λ r, (λ k, default PNaN (record_get r k)) <$> keys) <$> records).

Section Script.

(** The network answers the n-th request of the run. *)
Variable net : nat → request → reply.

(** [pd.read_excel] on the input file. *)
Variable read_excel : string → header_arg → res DataFrame.

(** [requests.get(url, headers=headers)] *)
Definition requests_get (u : string) (headers : gmap string string)
  : M response := λ w,
  let rq := mk_request u headers in
  let w' := mk_world (console w) (sent w ++ [rq]) (files w) in
  match net (length (sent w)) rq with
  | NoResponse msg => (Raise (RequestException msg), w')
  | Replied st rs loc b => (Ret (mk_response st rs loc b), w')
  end.

Definition get_deal_details (deal_id : pyval) (auth_token : string)
  : M pyobj :=
  let u := API_BASE_URL +:+ API_ENDPOINT deal_id in
  let headers := request_headers auth_token in
  try_except_M
    (response ← requests_get u headers;
     _ ← lift (raise_for_status response);
     lift (response_json response))
    is_RequestException
    (λ e,
       _ ← print ("Error fetching deal " +:+ str deal_id +:+ ": "
                    +:+ exn_text e);
       mret (OVal PNone)).

(** The loading block of [main]: find the header row in the raw sheet,
    then read the sheet again under it. *)
Definition read_sheet (excel_file : string) : M DataFrame :=
  try_except_M
    (df_raw ← lift (read_excel excel_file HeaderNone);
     match find_header_row 0 (data df_raw) with
     | Some header_row_idx =>
         _ ← print ("Found headers at row " +:+ pretty header_row_idx);
         lift (read_excel excel_file (HeaderRow header_row_idx))
     | None =>
         _ ← print "Could not find 'Deal ID' header row. Using default.";
         lift (read_excel excel_file HeaderDefault)
     end)
    is_Exception
    (λ e,
       _ ← print ("Failed to read Excel file: " +:+ exn_text e);
       sys_exit 1).

(** The body of the loop over the rows: [results] comes in and goes out. *)
Definition process_row (auth_token : string) (results : list record)
    (row : Row) : M (list record) :=
  deal_id ← lift (scalar_of (Series_get row "Deal ID"));
  if isna deal_id || bool_decide (strip (str deal_id) = "")
  then mret results
  else
    _ ← print ("Validating Deal ID: " +:+ str deal_id);
    api_data ← get_deal_details deal_id auth_token;
    let status := "SKIPPED" in
    let comments := "" in
    '(status, comments) ←
      (if truthy api_data then
         issues ← lift (validate_deal row api_data);
         match issues with
         | [] => mret ("PASS", comments)
         | _ => mret ("FAIL", join "; " issues)
         end
       else mret ("ERROR", "API Request Failed"));
    mret (results ++ [[("Deal ID", deal_id);
                       ("Status", PStr status);
                       ("Comments", PStr comments)]])%list.

Fixpoint process_rows (auth_token : string) (results : list record)
    (rows : list Row) : M (list record) :=
  match rows with
  | [] => mret results
  | row :: rows' =>
      results ← process_row auth_token results row;
      process_rows auth_token results rows'
  end.

Definition main (excel_file auth_token output : string) : M unit :=
  _ ← print ("Reading " +:+ excel_file +:+ "...");
  df ← read_sheet excel_file;
  let results : list record := [] in
  let df := clean_columns df in
  if negb (bool_decide (PStr "Deal ID" ∈ columns df)) then
    _ ← print ("Error: 'Deal ID' column not found. Available columns: "
                 +:+ repr_list (columns df));
    sys_exit 1
  else
    results ← process_rows auth_token results (iterrows df);
    let report_df := DataFrame_of_records results in
    _ ← to_excel report_df output;
    print ("Validation complete. Report saved to " +:+ output).

End Script.

(** ** Vocabulary of the specification *)

(** The canonical shape: four digits, a dash, two digits, a dash, two
    digits. *)
Definition is_canonical (s : string) : bool :=
  match s with
  | String y1 (String y2 (String y3 (String y4 (String h1
      (String m1 (String m2 (String h2 (String d1 (String d2 ""))))))))) =>
      is_digit y1 && is_digit y2 && is_digit y3 && is_digit y4
      && Ascii.eqb h1 "-"
      && is_digit m1 && is_digit m2
      && Ascii.eqb h2 "-"
      && is_digit d1 && is_digit d2
  | _ => false
  end.

(** The text is made of digits and dashes only. *)
Fixpoint date_chars (s : string) : bool :=
  match s with
  | "" => true
  | String c s' => (is_digit c || Ascii.eqb c "-") && date_chars s'
  end.

(** A date written month first, [MM-DD-YY] as the sheet's own column
    headers announce it ("Start Date (MM-DD-YY)") or [MM/DD/YYYY]; a
    two-digit year is read as [strptime]'s [%y] reads it. *)
Definition parse_month_first (s : string) : option (N * N * N) :=
  match take2 s with
  | Some (m, String sep1 s1) =>
      match take2 s1 with
      | Some (d, String sep2 s2) =>
          if (Ascii.eqb sep1 "-" || Ascii.eqb sep1 "/") && Ascii.eqb sep1 sep2
          then
            match take2 s2 with
            | Some (c, "") =>
                Some (if c <? 69 then 2000 + c else 1900 + c, m, d)
            | Some (c, s3) =>
                match take2 s3 with
                | Some (y, "") => Some (100 * c + y, m, d)
                | _ => None
                end
            | None => None
            end
          else None
      | _ => None
      end
  | _ => None
  end.

(** Follows the specification's words, "a string parseable as a generic
    date": a calendar date in ISO order or month first.  It is wider than
    what [normalize_date] parses, and is compared with it below. *)
Definition generic_date (s : string) : option datetime :=
  match fromisoformat s with
  | Some d => Some d
  | None =>
      match parse_month_first s with
      | Some (y, m, d) =>
          let dt := mk_datetime y m d 0 0 0 0 in
          if valid_datetime dt then Some dt else None
      | None => None
      end
  end.

(** The value of the [Authorization] header that goes out. *)
Definition authorization (auth_token : string) : string :=
  request_headers auth_token !!! "Authorization".

(** The text starts with "Bearer " under some letter casing. *)
Definition bearer_prefixed (s : string) : bool :=
  startswith "bearer " (lower s).

(** The number of places of [s] at which "Bearer " occurs, whatever the
    casing. *)
Fixpoint count_bearer (s : string) : nat :=
  ((if bearer_prefixed s then 1 else 0) +
   match s with
   | "" => 0
   | String _ s' => count_bearer s'
   end)%nat.

(** How a fetch ends: with the text of the error that is caught, or with
    the decoded document. *)
Definition fetch_result (r : reply) : string + pyobj :=
  match r with
  | NoResponse msg => inl msg
  | Replied st rs loc b =>
      if bool_decide (400 ≤ st < 500)%Z then
        inl (pretty st +:+ " Client Error: " +:+ rs +:+ " for url: " +:+ loc)
      else if bool_decide (500 ≤ st < 600)%Z then
        inl (pretty st +:+ " Server Error: " +:+ rs +:+ " for url: " +:+ loc)
      else match b with
           | NotJson msg => inl msg
           | Json o => inr o
           end
  end.

(** The request issued for a deal. *)
Definition deal_request (deal_id : pyval) (auth_token : string) : request :=
  mk_request (API_BASE_URL +:+ API_ENDPOINT deal_id)
             (request_headers auth_token).

(** An Outcome, as [main] appends it to [results]. *)
Definition outcome (deal_id : pyval) (status comments : string) : record :=
  [("Deal ID", deal_id); ("Status", PStr status); ("Comments", PStr comments)].

(** The skip test of the loop. *)
Definition blank (v : pyval) : bool :=
  isna v || bool_decide (strip (str v) = "").

(** The identifier cell of a row, [None] when the row has none. *)
Definition identifier (row : Row) : pyval :=
  match Series_get row "Deal ID" with
  | Scalar v => v
  | SubSeries _ => PNone
  end.

Definition statuses : list string := ["PASS"; "FAIL"; "ERROR"].

Definition outcome_of (row : Row) (o : record) : Prop :=
  ∃ st c, o = outcome (identifier row) st c ∧ st ∈ statuses.

Definition is_outcome (o : record) : Prop := ∃ v st c, o = outcome v st c.

(** The rows that are not skipped. *)
Definition kept (rows : list Row) : list Row :=
  filter (λ row, blank (identifier row) = false) rows.

Definition report_columns : list pyval :=
  [PStr "Deal ID"; PStr "Status"; PStr "Comments"].

(** The cells of the column labelled [name]. *)
Definition column (df : DataFrame) (name : string) : list pyval :=
  match list_find (λ l, l = PStr name) (columns df) with
  | Some (i, _) => (λ cells : list pyval, default PNaN (cells !! i)) <$> data df
  | None => []
  end.

(** The world after the first line a run prints, and after the line that
    announces a row. *)
Definition reading (excel_file : string) (w : world) : world :=
  mk_world (console w ++ ["Reading " +:+ excel_file +:+ "..."])
           (sent w) (files w).

Definition announce (v : pyval) (w : world) : world :=
  mk_world (console w ++ ["Validating Deal ID: " +:+ str v])
           (sent w) (files w).

(** The fields of the record are scalars. *)
Definition scalar_fields (d : gmap string jval) : Prop :=
  ∀ k x, d !! k = Some x → ∃ v : pyval, x = JVal v.

(** The service answers a successful request with a JSON object whose
    fields are scalars, or with something Python takes for false. *)
Definition answers_objects (net : nat → request → reply) : Prop :=
  ∀ n rq st rs loc o,
    net n rq = Replied st rs loc (Json o) → truthy o = true →
    ∃ d, o = ODict d ∧ scalar_fields d.

(** ** Concrete runs *)

(** A world in which nothing has happened yet. *)
Definition w0 : world := mk_world [] [] ∅.

(** The end-to-end sheet of the specification: a row without identifier, a
    row whose fetch fails, a row that matches. *)
Definition example_frame : DataFrame :=
  mk_df [PStr " Deal ID"; PStr "Deal Name"; PStr "CPM (INR)"]
        [[PNaN; PStr "Spring"; PInt 40];
         [PStr "D2"; PStr "Summer"; PInt 45];
         [PInt 138752; PStr "Winter"; PInt 50]].

Definition example_reader : string → header_arg → res DataFrame :=
  λ _ _, Ret example_frame.

Definition example_net : nat → request → reply :=
  λ n rq,
    match n with
    | O => NoResponse "Connection refused"
    | _ => Replied 200 "OK" (req_url rq)
             (Json (ODict {[ "name" := JVal (PStr "Winter");
                             "cpm" := JVal (PInt 50) ]}))
    end.

Definition example_run : res () * world :=
  main example_net example_reader "deals.xlsx" "token" "report.xlsx" w0.

(** A sheet in which every row is skipped. *)
Definition blank_frame : DataFrame :=
  mk_df [PStr "Deal ID"; PStr "Deal Name"]
        [[PNaN; PStr "Spring"]; [PStr "   "; PStr "Summer"]].

Definition row_D1 : Row :=
  [(PStr "Deal ID", PStr "D1"); (PStr "Deal Name", PStr "Summer")].

(** Services that answer every request the same way. *)
Definition net_404 : nat → request → reply :=
  λ _ rq, Replied 404 "Not Found" (req_url rq) (NotJson "Expecting value").

Definition net_300 : nat → request → reply :=
  λ _ rq, Replied 300 "Multiple Choices" (req_url rq)
            (Json (ODict {[ "name" := JVal (PStr "Summer") ]})).

Definition net_empty_object : nat → request → reply :=
  λ _ rq, Replied 200 "OK" (req_url rq) (Json (ODict ∅)).

(** ** Vocabulary of the properties of the code *)

(** The text holds nothing but whitespace: what makes [strip] return the
    empty text. *)
Fixpoint all_space (s : string) : bool :=
  match s with
  | "" => true
  | String a s' => isspace a && all_space s'
  end.

(** The world after the loading block has announced the header row it
    found, and after it has announced that it found none. *)
Definition found_headers (k : nat) (w : world) : world :=
  mk_world (console w ++ ["Found headers at row " +:+ pretty k])
           (sent w) (files w).

Definition no_headers (w : world) : world :=
  mk_world
    (console w ++ ["Could not find 'Deal ID' header row. Using default."])
    (sent w) (files w).

(** The requests a run sends for a sheet: one for each row kept, in the
    order of the rows. *)
Definition requests_of (tok : string) (rows : list Row) : list request :=
  (λ row, deal_request (identifier row) tok) <$> kept rows.

(** The position of the identifier column of a sheet: that of the first
    label that is "Deal ID" once the labels are cleaned. *)
Definition id_column (df : DataFrame) : option nat :=
  fst <$> list_find (λ l, l = PStr "Deal ID") (clean_label <$> columns df).

(** The cells at position [i], one for each row of the sheet and in the
    order of the rows. *)
Definition id_cells (i : nat) (df : DataFrame) : list pyval :=
  (λ cells, default PNone (cells !! i)) <$> data df.

(** The identifier cell is neither missing nor empty once trimmed. *)
Definition identified (v : pyval) : Prop :=
  ¬ (isna v = true ∨ strip (str v) = "").

#[global] Instance identified_dec v : Decision (identified v).
Proof. unfold identified. apply _. Defined.

(** One request for each identifier, in order. *)
Definition requests_for (tok : string) (vs : list pyval) : list request :=
  (λ v, deal_request v tok) <$> vs.

(** The Discrepancy is the one of check [c] for two texts that differ. *)
Definition reports (c : check) (issue : string) : Prop :=
  ∃ a b, a ≠ b ∧ issue = discrepancy c a b.

(** A value that both sides of a comparison render the same way:
    everything but nan and NaT, which only the row side takes for
    missing. *)
Definition same_on_both_sides (v : pyval) : bool :=
  match v with
  | PNaN | PNaT => false
  | _ => true
  end.

(** How the comments of an Outcome go with its status. *)
Definition comment_fits (status comments : string) : Prop :=
  (status = "PASS" ∧ comments = "")
  ∨ (status = "FAIL" ∧ comments ≠ "")
  ∨ (status = "ERROR" ∧ comments = "API Request Failed").


(** ** More concrete sheets, rows and services *)

(** A sheet with a title line above the header line, as [header=None]
    reads it. *)
Definition titled_raw_frame : DataFrame :=
  mk_df [PInt 0; PInt 1; PInt 2]
        [[PStr "Deals of the quarter"; PNaN; PNaN];
         [PStr " Deal ID"; PStr "Deal Name"; PStr "CPM (INR)"];
         [PNaN; PStr "Spring"; PInt 40];
         [PStr "D2"; PStr "Summer"; PInt 45];
         [PInt 138752; PStr "Winter"; PInt 50]].

Definition titled_reader : string → header_arg → res DataFrame :=
  λ _ h,
    match h with
    | HeaderNone => Ret titled_raw_frame
    | HeaderRow 1 => Ret example_frame
    | _ => Raise (ReadError "unexpected header argument")
    end.

(** A sheet that names no identifier column anywhere. *)
Definition unmarked_raw_frame : DataFrame :=
  mk_df [PInt 0; PInt 1] [[PStr "Name"; PStr "CPM"]; [PStr "Spring"; PInt 40]].

Definition unmarked_frame : DataFrame :=
  mk_df [PStr "Name"; PStr "CPM"] [[PStr "Spring"; PInt 40]].

Definition unmarked_reader : string → header_arg → res DataFrame :=
  λ _ h,
    match h with
    | HeaderNone => Ret unmarked_raw_frame
    | _ => Ret unmarked_frame
    end.

(** A file that cannot be opened. *)
Definition failing_reader : string → header_arg → res DataFrame :=
  λ _ _, Raise (ReadError "No such file or directory: 'deals.xlsx'").

(** A sheet of two deals, each with its identifier. *)
Definition two_deals_frame : DataFrame :=
  mk_df [PStr "Deal ID"; PStr "Deal Name"]
        [[PStr "D1"; PStr "Summer"]; [PStr "D2"; PStr "Winter"]].

(** A row whose identifier cell holds spaces only. *)
Definition row_spaces : Row :=
  [(PStr "Deal ID", PStr "   "); (PStr "Deal Name", PStr "Summer")].

(** A row with all five compared columns and the record that matches it. *)
Definition row_full : Row :=
  [(PStr "Deal ID", PInt 138752);
   (PStr "Deal Name", PStr "Winter");
   (PStr "CPM (INR)", PInt 50);
   (PStr "Start Date (MM-DD-YY)", PStr "2026-02-01");
   (PStr "End date (MM-DD-YY)", PNaT);
   (PStr "Budget (INR)", PNone)].

Definition record_full : gmap string jval :=
  {[ "name" := JVal (PStr "Winter"); "cpm" := JVal (PInt 50);
     "startDate" := JVal (PStr "2026-02-01"); "endDate" := JVal PNaT;
     "budget" := JVal PNone ]}.

Definition start_date_check : check :=
  mk_check "Start Date (MM-DD-YY)" "startDate" "Start Date" true.

Definition row_dated : Row :=
  [(PStr "Deal ID", PInt 138752);
   (PStr "Start Date (MM-DD-YY)", PTimestamp (mk_datetime 2026 2 1 0 0 0 0))].

(** A service that answers every request with a JSON array. *)
Definition net_array : nat → request → reply :=
  λ _ rq, Replied 200 "OK" (req_url rq) (Json (OList [PInt 1])).

(** A record whose start date is a JSON array. *)
Definition record_two_starts : gmap string jval :=
  {[ "name" := JVal (PStr "Summer");
     "startDate" := JList (PStr "2026-02-01") [PStr "2026-03-01"] ]}.

(** A service that answers every request with that record. *)
Definition net_two_starts : nat → request → reply :=
  λ _ rq, Replied 200 "OK" (req_url rq) (Json (ODict record_two_starts)).

(** A row dated in the year 999. *)
Definition row_year_999 : Row :=
  [(PStr "Deal ID", PStr "D1");
   (PStr "Start Date (MM-DD-YY)", PTimestamp (mk_datetime 999 1 1 0 0 0 0))].

(** ** Dates *)

Lemma is_digit_spec c :
  is_digit c = true → ∃ n, n < 10 ∧ c = digit_char n ∧ digit_val c = n.
Proof.
  intros H. exists (digit_val c).
  destruct c as [[] [] [] [] [] [] [] []]; vm_compute in H; try discriminate;
    vm_compute; auto.
Qed.

Lemma digit_cases n :
  n < 10 →
  n = 0 ∨ n = 1 ∨ n = 2 ∨ n = 3 ∨ n = 4 ∨ n = 5 ∨ n = 6 ∨ n = 7
  ∨ n = 8 ∨ n = 9.
Proof. lia. Qed.

Lemma is_digit_digit_char n : n < 10 → is_digit (digit_char n) = true.
Proof.
  intros H. apply digit_cases in H.
  repeat destruct H as [-> | H]; try subst n; reflexivity.
Qed.

Lemma digit_val_digit_char n : n < 10 → digit_val (digit_char n) = n.
Proof.
  intros H. apply digit_cases in H.
  repeat destruct H as [-> | H]; try subst n; reflexivity.
Qed.

(** A digit is an ASCII character and none of the marks of the parser. *)
Lemma digit_char_plain n :
  n < 10 →
  (N_of_ascii (digit_char n) <? 128) = true
  ∧ Ascii.eqb (digit_char n) "-" = false
  ∧ Ascii.eqb (digit_char n) "W" = false
  ∧ Ascii.eqb (digit_char n) "T" = false
  ∧ Ascii.eqb (digit_char n) " " = false.
Proof.
  intros H. apply digit_cases in H.
  repeat destruct H as [-> | H]; try subst n; repeat split; reflexivity.
Qed.

Lemma is_digit_not_separator c :
  is_digit c = true → Ascii.eqb c "T" = false ∧ Ascii.eqb c " " = false.
Proof.
  destruct c as [[] [] [] [] [] [] [] []]; vm_compute; intros;
    try discriminate; auto.
Qed.

Lemma pad2_num a b :
  a < 10 → b < 10 →
  pad2 (10 * a + b) = String (digit_char a) (String (digit_char b) "").
Proof.
  intros Ha Hb. unfold pad2.
  assert ((10 * a + b) / 10 = a) as ->
    by (symmetry; apply (N.div_unique _ 10 a b); lia).
  assert ((10 * a + b) mod 10 = b) as ->
    by (symmetry; apply (N.mod_unique _ 10 a b); lia).
  rewrite (N.mod_small a 10) by lia. reflexivity.
Qed.

Lemma pad4_num c y :
  c < 100 → y < 100 → pad4 (100 * c + y) = pad2 c +:+ pad2 y.
Proof.
  intros Hc Hy. unfold pad4.
  assert ((100 * c + y) / 100 = c) as ->
    by (symmetry; apply (N.div_unique _ 100 c y); lia).
  assert ((100 * c + y) mod 100 = y) as ->
    by (symmetry; apply (N.mod_unique _ 100 c y); lia).
  reflexivity.
Qed.

Lemma pad2_shape n :
  ∃ a b, pad2 n = String a (String b "")
         ∧ is_digit a = true ∧ is_digit b = true.
Proof.
  unfold pad2. eexists _, _. split; [reflexivity|].
  split; apply is_digit_digit_char; apply N.mod_lt; lia.
Qed.

(** A number below 100 is two digits, one below 10000 four. *)
Lemma two_digits n : n < 100 → ∃ a b, a < 10 ∧ b < 10 ∧ n = 10 * a + b.
Proof.
  intros H. exists (n / 10), (n mod 10).
  split; [apply N.Div0.div_lt_upper_bound; lia|].
  split; [apply N.mod_lt; lia|]. apply N.div_mod'.
Qed.

Lemma four_digits n :
  n < 10000 →
  ∃ a b c d, a < 10 ∧ b < 10 ∧ c < 10 ∧ d < 10
             ∧ n = 10 * (10 * (10 * a + b) + c) + d.
Proof.
  intros H.
  destruct (two_digits (n / 100)) as (a & b & Ha & Hb & E1);
    [apply N.Div0.div_lt_upper_bound; lia|].
  destruct (two_digits (n mod 100)) as (c & d & Hc & Hd & E2);
    [apply N.mod_lt; lia|].
  exists a, b, c, d. repeat split; try done.
  pose proof (N.div_mod' n 100). lia.
Qed.

(** [%Y] of glibc: the decimal digits of the year, as many as it has. *)
Lemma pretty_N_go_digit q r s :
  r < 10 → 0 < 10 * q + r →
  pretty_N_go (10 * q + r) s = pretty_N_go q (String (digit_char r) s).
Proof.
  intros Hr Hpos. rewrite pretty_N_go_step by done.
  assert ((10 * q + r) `div` 10 = q) as ->
    by (symmetry; apply (N.div_unique _ 10 q r); lia).
  assert ((10 * q + r) `mod` 10 = r) as ->
    by (symmetry; apply (N.mod_unique _ 10 q r); lia).
  f_equal. f_equal. apply digit_cases in Hr.
  repeat destruct Hr as [-> | Hr]; try subst r; reflexivity.
Qed.

Lemma pretty_N_go_last r s :
  0 < r → r < 10 → pretty_N_go r s = String (digit_char r) s.
Proof.
  intros Hpos Hr. replace r with (10 * 0 + r) at 1 by lia.
  rewrite pretty_N_go_digit by lia. by rewrite pretty_N_go_0.
Qed.

Lemma pretty_year a b c d :
  a < 10 → b < 10 → c < 10 → d < 10 →
  0 < 10 * (10 * (10 * a + b) + c) + d →
  pretty (10 * (10 * (10 * a + b) + c) + d) =
  if 0 <? a then
    String (digit_char a) (String (digit_char b) (String (digit_char c)
      (String (digit_char d) "")))
  else if 0 <? b then
    String (digit_char b) (String (digit_char c) (String (digit_char d) ""))
  else if 0 <? c then String (digit_char c) (String (digit_char d) "")
  else String (digit_char d) "".
Proof.
  intros Ha Hb Hc Hd Hpos. unfold pretty, pretty_N.
  rewrite decide_False by lia.
  destruct (0 <? a) eqn:Ea.
  { apply N.ltb_lt in Ea. rewrite !pretty_N_go_digit by lia.
    by rewrite pretty_N_go_last. }
  apply N.ltb_ge in Ea. assert (a = 0) as -> by lia.
  replace (10 * (10 * (10 * 0 + b) + c) + d) with (10 * (10 * b + c) + d)
    in * by lia.
  destruct (0 <? b) eqn:Eb.
  { apply N.ltb_lt in Eb. rewrite !pretty_N_go_digit by lia.
    by rewrite pretty_N_go_last. }
  apply N.ltb_ge in Eb. assert (b = 0) as -> by lia.
  replace (10 * (10 * 0 + c) + d) with (10 * c + d) in * by lia.
  destruct (0 <? c) eqn:Ec.
  { apply N.ltb_lt in Ec. rewrite !pretty_N_go_digit by lia.
    by rewrite pretty_N_go_last. }
  apply N.ltb_ge in Ec. assert (c = 0) as -> by lia.
  replace (10 * 0 + d) with d in * by lia.
  by rewrite pretty_N_go_last.
Qed.

(** From 1000 on [%Y] prints what [%04d] prints. *)
Lemma pretty_year_pad4 y : 1000 ≤ y → y < 10000 → pretty y = pad4 y.
Proof.
  intros Hlo Hhi. destruct (four_digits y Hhi) as (a & b & c & d & Ha & Hb
    & Hc & Hd & ->).
  rewrite pretty_year by (try done; lia).
  assert ((0 <? a) = true) as -> by (apply N.ltb_lt; lia).
  replace (10 * (10 * (10 * a + b) + c) + d)
    with (100 * (10 * a + b) + (10 * c + d)) by lia.
  rewrite pad4_num, !pad2_num by lia. reflexivity.
Qed.

Lemma is_digit_plain c :
  is_digit c = true →
  (N_of_ascii c <? 128) = true
  ∧ Ascii.eqb c "-" = false
  ∧ Ascii.eqb c "W" = false.
Proof.
  destruct c as [[] [] [] [] [] [] [] []]; vm_compute; intros;
    try discriminate; auto.
Qed.

Lemma fromisoformat_valid s d :
  fromisoformat s = Some d → valid_datetime d = true.
Proof.
  unfold fromisoformat. destruct (_ <? 7)%nat; [discriminate|].
  destruct (find_isoformat_datetime_separator _) as [sep|]; [|discriminate].
  cbn [mbind option_bind].
  destruct (parse_isoformat_date _ _) as [[[y m] dd]|]; [|discriminate].
  cbn [mbind option_bind].
  destruct (if (sep <? _)%nat then _ else _) as [[[[hh mi] ss] us]|];
    [|discriminate].
  cbn [mbind option_bind].
  destruct (_ && _); [|discriminate].
  destruct (valid_datetime _) eqn:E; [|discriminate].
  by intros [= <-].
Qed.

Lemma fromisoformat_extended y1 y2 y3 y4 m1 m2 d1 d2 :
  is_digit y1 = true → is_digit y2 = true → is_digit y3 = true →
  is_digit y4 = true → is_digit m1 = true → is_digit m2 = true →
  is_digit d1 = true → is_digit d2 = true →
  fromisoformat
    (String y1 (String y2 (String y3 (String y4 (String "-"
       (String m1 (String m2 (String "-" (String d1 (String d2 ""))))))))))
  = let dt :=
      mk_datetime
        (10 * (10 * (10 * digit_val y1 + digit_val y2) + digit_val y3)
         + digit_val y4)
        (10 * digit_val m1 + digit_val m2)
        (10 * digit_val d1 + digit_val d2) 0 0 0 0 in
    if valid_datetime dt then Some dt else None.
Proof.
  intros Hy1 Hy2 Hy3 Hy4 Hm1 Hm2 Hd1 Hd2.
  destruct (is_digit_plain _ Hy1) as (A1 & _ & _).
  destruct (is_digit_plain _ Hy2) as (A2 & _ & _).
  destruct (is_digit_plain _ Hy3) as (A3 & _ & _).
  destruct (is_digit_plain _ Hy4) as (A4 & _ & _).
  destruct (is_digit_plain _ Hm1) as (A5 & B5 & C5).
  destruct (is_digit_plain _ Hm2) as (A6 & _ & _).
  destruct (is_digit_plain _ Hd1) as (A7 & _ & _).
  destruct (is_digit_plain _ Hd2) as (A8 & _ & _).
  unfold fromisoformat. cbn [utf8].
  rewrite A1, A2, A3, A4, A5, A6, A7, A8.
  change (N_of_ascii "-" <? 128) with true. cbn iota.
  unfold find_isoformat_datetime_separator, parse_isoformat_date.
  cbn [String.length Nat.ltb Nat.leb Nat.eqb byte_at String.get default
         from_option id parse_digits mbind option_bind].
  change ("-" =? "-")%char with true. rewrite C5. cbn iota.
  cbn [mbind option_bind]. rewrite Hy1, Hy2, Hy3, Hy4. cbn iota.
  cbn [mbind option_bind byte_at String.get default from_option id].
  change ("-" =? "-")%char with true. cbn iota.
  cbn [byte_at String.get default from_option id].
  rewrite C5, Hm1, Hm2. cbn iota.
  cbn [mbind option_bind byte_at String.get default from_option id andb negb].
  change ("-" =? "-")%char with true. cbn [negb andb].
  cbn [byte_at String.get default from_option id parse_digits].
  rewrite Hd1, Hd2. cbn iota.
  cbn [mbind option_bind Nat.ltb Nat.leb].
  rewrite !N2Z.id, !N.mul_0_r, !N.add_0_l. cbn zeta.
  destruct (valid_datetime _) eqn:E; [|by destruct (_ && _)].
  unfold valid_datetime in E. cbn [year month day] in E.
  rewrite !andb_true_iff, !N.leb_le in E.
  destruct E as [[[[[[[[[Y1 _] M1] _] D1] _] _] _] _] _].
  rewrite !(proj2 (Z.leb_le _ _)) by lia. reflexivity.
Qed.

Lemma fromisoformat_bad_year s :
  parse_digits (utf8 s) 0 4 0 = None → fromisoformat s = None.
Proof.
  intros H. unfold fromisoformat. destruct (_ <? 7)%nat; [done|].
  destruct (find_isoformat_datetime_separator _) as [sep|]; [|done].
  cbn [mbind option_bind]. unfold parse_isoformat_date. by rewrite H.
Qed.


Lemma fromisoformat_basic y1 y2 y3 y4 m1 m2 d1 d2 :
  is_digit y1 = true → is_digit y2 = true → is_digit y3 = true →
  is_digit y4 = true → is_digit m1 = true → is_digit m2 = true →
  is_digit d1 = true → is_digit d2 = true →
  fromisoformat
    (String y1 (String y2 (String y3 (String y4
       (String m1 (String m2 (String d1 (String d2 ""))))))))
  = let dt :=
      mk_datetime
        (10 * (10 * (10 * digit_val y1 + digit_val y2) + digit_val y3)
         + digit_val y4)
        (10 * digit_val m1 + digit_val m2)
        (10 * digit_val d1 + digit_val d2) 0 0 0 0 in
    if valid_datetime dt then Some dt else None.
Proof.
  intros Hy1 Hy2 Hy3 Hy4 Hm1 Hm2 Hd1 Hd2.
  destruct (is_digit_plain _ Hy1) as (A1 & _ & _).
  destruct (is_digit_plain _ Hy2) as (A2 & _ & _).
  destruct (is_digit_plain _ Hy3) as (A3 & _ & _).
  destruct (is_digit_plain _ Hy4) as (A4 & _ & _).
  destruct (is_digit_plain _ Hm1) as (A5 & B5 & C5).
  destruct (is_digit_plain _ Hm2) as (A6 & _ & _).
  destruct (is_digit_plain _ Hd1) as (A7 & _ & _).
  destruct (is_digit_plain _ Hd2) as (A8 & _ & _).
  unfold fromisoformat. cbn [utf8].
  rewrite A1, A2, A3, A4, A5, A6, A7, A8. cbn iota.
  unfold find_isoformat_datetime_separator, parse_isoformat_date.
  cbn [String.length Nat.ltb Nat.leb Nat.eqb byte_at String.get default
         from_option id parse_digits mbind option_bind].
  rewrite B5, C5. cbn iota.
  cbn [mbind option_bind]. rewrite Hy1, Hy2, Hy3, Hy4. cbn iota.
  cbn [mbind option_bind byte_at String.get default from_option id].
  rewrite B5. cbn iota.
  cbn [byte_at String.get default from_option id].
  rewrite C5, Hm1, Hm2. cbn iota.
  cbn [mbind option_bind byte_at String.get default from_option id andb negb
         parse_digits].
  rewrite Hd1, Hd2. cbn iota.
  cbn [mbind option_bind Nat.ltb Nat.leb].
  rewrite !N2Z.id, !N.mul_0_r, !N.add_0_l. cbn zeta.
  destruct (valid_datetime _) eqn:E; [|by destruct (_ && _)].
  unfold valid_datetime in E. cbn [year month day] in E.
  rewrite !andb_true_iff, !N.leb_le in E.
  destruct E as [[[[[[[[[Y1 _] M1] _] D1] _] _] _] _] _].
  rewrite !(proj2 (Z.leb_le _ _)) by lia. reflexivity.
Qed.

(** What [normalize_date] makes of a text with no "T" and no blank. *)
Lemma normalize_date_plain s :
  contains_char "T" s = false →
  contains_char " " s = false →
  normalize_date (PStr s)
  = Ret (PStr match fromisoformat s with
              | Some d => strftime_ymd d
              | None => s
              end).
Proof.
  intros HT HS. unfold normalize_date, datetime_fromisoformat.
  cbn [isna_test isna mbind res_bind]. rewrite HT, HS.
  by destruct (fromisoformat s).
Qed.

Lemma date_chars_plain s :
  date_chars s = true →
  contains_char "T" s = false ∧ contains_char " " s = false.
Proof.
  induction s as [|c s IH]; [done|]. cbn [date_chars contains_char].
  rewrite andb_true_iff, orb_true_iff. intros [[Hc|Hc] Hs].
  - destruct (is_digit_not_separator c Hc) as [-> ->]. by apply IH.
  - apply Ascii.eqb_eq in Hc as ->. by apply IH.
Qed.

(** What [strftime('%Y-%m-%d')] prints for a valid date normalizes to
    itself. *)
Lemma strftime_fixed d :
  valid_datetime d = true →
  normalize_date (PStr (strftime_ymd d)) = Ret (PStr (strftime_ymd d)).
Proof.
  intros Hv. unfold valid_datetime in Hv.
  rewrite !andb_true_iff, !N.leb_le in Hv.
  destruct Hv as [[[[[[[[[Y1 Y2] M1] M2] D1] D2] _] _] _] _].
  assert (day d ≤ 31) as D3.
  { etrans; [exact D2|]. unfold days_in_month.
    repeat case_match; lia. }
  destruct (four_digits (year d)) as (a & b & c & e & Ha & Hb & Hc & He & Ey);
    [lia|].
  destruct (two_digits (month d)) as (m1 & m2 & Hm1 & Hm2 & Em); [lia|].
  destruct (two_digits (day d)) as (d1 & d2 & Hd1 & Hd2 & Ed); [lia|].
  pose proof (is_digit_digit_char a Ha) as Ia.
  pose proof (is_digit_digit_char b Hb) as Ib.
  pose proof (is_digit_digit_char c Hc) as Ic.
  pose proof (is_digit_digit_char e He) as Ie.
  pose proof (is_digit_digit_char m1 Hm1) as Im1.
  pose proof (is_digit_digit_char m2 Hm2) as Im2.
  pose proof (is_digit_digit_char d1 Hd1) as Id1.
  pose proof (is_digit_digit_char d2 Hd2) as Id2.
  assert (date_chars (strftime_ymd d) = true
          ∧ (fromisoformat (strftime_ymd d) = None
             ∨ ∃ d', fromisoformat (strftime_ymd d) = Some d'
                     ∧ strftime_ymd d' = strftime_ymd d)) as [Hc' Hf].
  { unfold strftime_ymd at 1 2 3. rewrite Ey, Em, Ed.
    rewrite pretty_year, !pad2_num by (try done; lia).
    destruct (0 <? a) eqn:Ea; [|destruct (0 <? b); [|destruct (0 <? c)]];
      cbv [String.append]; cbn [date_chars];
      rewrite ?Ia, ?Ib, ?Ic, ?Ie, ?Im1, ?Im2, ?Id1, ?Id2;
      (split; [reflexivity|]).
    - right. rewrite fromisoformat_extended by done. cbn zeta.
      rewrite !digit_val_digit_char by done.
      rewrite <- Ey, <- Em, <- Ed.
      assert (valid_datetime
                (mk_datetime (year d) (month d) (day d) 0 0 0 0) = true) as ->.
      { unfold valid_datetime. cbn [year month day hour minute second
          microsecond].
        rewrite !andb_true_iff, !N.leb_le. repeat split; done || lia. }
      eexists. split; [reflexivity|]. reflexivity.
    - left. apply fromisoformat_bad_year. cbn [utf8].
      destruct (is_digit_plain _ Ib) as (-> & _ & _).
      destruct (is_digit_plain _ Ic) as (-> & _ & _).
      destruct (is_digit_plain _ Ie) as (-> & _ & _).
      cbn [parse_digits byte_at String.get default from_option id].
      by rewrite Ib, Ic, Ie.
    - left. apply fromisoformat_bad_year. cbn [utf8].
      destruct (is_digit_plain _ Ic) as (-> & _ & _).
      destruct (is_digit_plain _ Ie) as (-> & _ & _).
      cbn [parse_digits byte_at String.get default from_option id].
      by rewrite Ic, Ie.
    - left. apply fromisoformat_bad_year. cbn [utf8].
      destruct (is_digit_plain _ Ie) as (-> & _ & _).
      cbn [parse_digits byte_at String.get default from_option id].
      by rewrite Ie. }
  destruct (date_chars_plain _ Hc') as [HT HS].
  rewrite normalize_date_plain by done.
  destruct Hf as [->|(d' & -> & E)]; [done|by rewrite E].
Qed.

(** What [normalize_date] makes of a scalar: it returns, whatever the
    scalar.  A missing one (None, nan, NaT) gives None; a text holding "T"
    is cut at its first "T", otherwise a text holding a blank is cut at
    its first blank; any other text is reformatted when [fromisoformat]
    accepts it and returned as it is when not; a date value is
    reformatted; every other scalar is returned as its [str()] text. *)
Lemma normalize_date_scalar (v : pyval) :
  normalize_date v
  = Ret (if isna v then PNone
         else PStr
                match v with
                | PStr t =>
                    if contains_char "T" t then split_head "T" t
                    else if contains_char " " t then split_head " " t
                    else match fromisoformat t with
                         | Some d => strftime_ymd d
                         | None => t
                         end
                | PTimestamp d => strftime_ymd d
                | _ => str v
                end).
Proof.
  unfold normalize_date, datetime_fromisoformat.
  destruct v as [| | |t|z|f|b|d]; cbn [isna_test isna mbind res_bind];
    try reflexivity.
  destruct (contains_char "T" t); [reflexivity|].
  destruct (contains_char " " t); [reflexivity|].
  destruct (fromisoformat t); reflexivity.
Qed.

Lemma normalize_date_returns (v : pyval) : ∃ r, normalize_date v = Ret r.
Proof. rewrite normalize_date_scalar. eauto. Qed.

(** C6: date normalization does raise.  The truth test [if
    pd.isna(date_obj)] stands before the [try]; on a list of two or more
    members, which is what a JSON array field is, [pd.isna] returns an
    array and the test raises ValueError, which nothing in
    [normalize_date] catches. *)
Theorem normalize_date_raises_on_array v1 v2 vs :
  normalize_date (JList v1 (v2 :: vs)) = Raise ValueError
  ∧ validate_deal row_dated (ODict {[ "startDate" := JList v1 (v2 :: vs) ]})
    = Raise ValueError.
Proof. split; reflexivity. Qed.

(** A run in which the service sends such a record for the first deal of
    the sheet: the ValueError ends the run at that row, after one request
    and before any report is written. *)
Lemma array_date_field_ends_the_run :
  let run := main net_two_starts (λ _ _, Ret two_deals_frame)
               "deals.xlsx" "token" "report.xlsx" w0 in
  run.1 = Raise ValueError
  ∧ files run.2 = ∅
  ∧ length (sent run.2) = 1%nat.
Proof. vm_compute. done. Qed.

Lemma digit_char_digit_val c : is_digit c = true → digit_char (digit_val c) = c.
Proof. intros H. by destruct (is_digit_spec c H) as (n & _ & -> & ->). Qed.

Lemma digit_val_lt c : is_digit c = true → digit_val c < 10.
Proof. intros H. by destruct (is_digit_spec c H) as (n & ? & _ & ->). Qed.

(** A canonical text whose year does not start with a zero comes back
    unchanged: when it is a date, the text printed for it is the text
    read, and when it is none (2026-02-30) it is passed through. *)
Lemma canonical_from_1000_kept s :
  is_canonical s = true →
  (∀ r, s ≠ String "0" r) →
  normalize_date (PStr s) = Ret (PStr s).
Proof.
  unfold is_canonical.
  destruct s as [|y1 [|y2 [|y3 [|y4 [|h1 [|m1 [|m2 [|h2 [|d1 [|d2 [|]]]]]]]]]]];
    try discriminate.
  rewrite !andb_true_iff.
  intros [[[[[[[[[Hy1 Hy2] Hy3] Hy4] Hh1] Hm1] Hm2] Hh2] Hd1] Hd2] Hnz.
  apply Ascii.eqb_eq in Hh1, Hh2. subst h1 h2.
  rewrite normalize_date_plain.
  2,3: apply date_chars_plain; cbn [date_chars];
       by rewrite Hy1, Hy2, Hy3, Hy4, Hm1, Hm2, Hd1, Hd2.
  rewrite fromisoformat_extended by done. cbn zeta.
  destruct (valid_datetime _); [|done].
  unfold strftime_ymd. cbn [year month day].
  pose proof (digit_val_lt _ Hy1). pose proof (digit_val_lt _ Hy2).
  pose proof (digit_val_lt _ Hy3). pose proof (digit_val_lt _ Hy4).
  pose proof (digit_val_lt _ Hm1). pose proof (digit_val_lt _ Hm2).
  pose proof (digit_val_lt _ Hd1). pose proof (digit_val_lt _ Hd2).
  assert (0 < digit_val y1) as Hpos.
  { destruct (is_digit_spec y1 Hy1) as (n & Hn & -> & ->).
    destruct (N.eq_dec n 0) as [->|]; [|lia]. by destruct (Hnz _ eq_refl). }
  rewrite pretty_year, !pad2_num by (try done; lia).
  rewrite (proj2 (N.ltb_lt _ _) Hpos).
  by rewrite !digit_char_digit_val.
Qed.

(** C7: a canonical text is not always returned unchanged.  "0999-01-01"
    is a date; [strftime('%Y-%m-%d')] prints its year as "999", so the
    text comes back one character shorter, and no longer canonical. *)
Theorem canonical_year_below_1000_is_changed :
  is_canonical "0999-01-01" = true
  ∧ normalize_date (PStr "0999-01-01") = Ret (PStr "999-01-01")
  ∧ normalize_date (PStr "0999-01-01") ≠ Ret (PStr "0999-01-01")
  ∧ is_canonical "999-01-01" = false.
Proof. repeat split; try reflexivity. vm_compute. discriminate. Qed.

(** "02-01-26" holds neither "T" nor blank and reads as the first of
    February 2026, canonically "2026-02-01"; it is passed through
    unchanged. *)
Lemma generic_date_passed_through :
  contains_char "T" "02-01-26" = false
  ∧ contains_char " " "02-01-26" = false
  ∧ generic_date "02-01-26" = Some (mk_datetime 2026 2 1 0 0 0 0)
  ∧ strftime_ymd (mk_datetime 2026 2 1 0 0 0 0) = "2026-02-01"
  ∧ normalize_date (PStr "02-01-26") = Ret (PStr "02-01-26")
  ∧ is_canonical "02-01-26" = false.
Proof. repeat split; vm_compute; reflexivity. Qed.

(** From the year 1000 on [strftime('%Y-%m-%d')] prints the canonical
    text of the date. *)
Lemma strftime_ymd_canonical d :
  1000 ≤ year d → year d ≤ 9999 →
  strftime_ymd d
  = pad4 (year d) +:+ "-" +:+ pad2 (month d) +:+ "-" +:+ pad2 (day d)
  ∧ is_canonical (strftime_ymd d) = true.
Proof.
  intros Hlo Hhi. unfold strftime_ymd.
  rewrite pretty_year_pad4 by lia. split; [reflexivity|].
  unfold pad4.
  destruct (pad2_shape (year d / 100)) as (a1 & a2 & -> & H1 & H2).
  destruct (pad2_shape (year d mod 100)) as (a3 & a4 & -> & H3 & H4).
  destruct (pad2_shape (month d)) as (b1 & b2 & -> & H5 & H6).
  destruct (pad2_shape (day d)) as (c1 & c2 & -> & H7 & H8).
  cbv [String.append is_canonical].
  by rewrite H1, H2, H3, H4, H5, H6, H7, H8.
Qed.

(** C8 (as amended): a text without "T" and without blank that
    [datetime.fromisoformat] accepts is returned as what
    [strftime('%Y-%m-%d')] prints for the date parsed, a valid calendar
    date; from the year 1000 on that is the canonical YYYY-MM-DD text of
    the date.  A text that [fromisoformat] rejects is returned
    unchanged. *)
Theorem normalize_date_iso s :
  contains_char "T" s = false →
  contains_char " " s = false →
  match fromisoformat s with
  | Some d =>
      normalize_date (PStr s) = Ret (PStr (strftime_ymd d))
      ∧ valid_datetime d = true
      ∧ (1000 ≤ year d →
         strftime_ymd d
         = pad4 (year d) +:+ "-" +:+ pad2 (month d) +:+ "-" +:+ pad2 (day d)
         ∧ is_canonical (strftime_ymd d) = true)
  | None => normalize_date (PStr s) = Ret (PStr s)
  end.
Proof.
  intros HT HS. rewrite normalize_date_plain by done.
  destruct (fromisoformat s) as [d|] eqn:E; [|done].
  split; [done|]. apply fromisoformat_valid in E. split; [done|].
  intros Hy. apply strftime_ymd_canonical; [done|].
  unfold valid_datetime in E. rewrite !andb_true_iff, !N.leb_le in E. lia.
Qed.

Lemma normalize_date_iso_witness :
  match fromisoformat "20260201" with
  | Some d =>
      normalize_date (PStr "20260201") = Ret (PStr (strftime_ymd d))
      ∧ valid_datetime d = true
      ∧ (1000 ≤ year d →
         strftime_ymd d
         = pad4 (year d) +:+ "-" +:+ pad2 (month d) +:+ "-" +:+ pad2 (day d)
         ∧ is_canonical (strftime_ymd d) = true)
  | None => normalize_date (PStr "20260201") = Ret (PStr "20260201")
  end.
Proof. apply (normalize_date_iso "20260201"); reflexivity. Defined.

(** The examples of the specification, and texts in the other notations
    that [fromisoformat] reads. *)
Lemma normalize_date_examples :
  normalize_date (PStr "2019-03-22T09:31:18Z") = Ret (PStr "2019-03-22")
  ∧ normalize_date (PStr "2026-02-01 00:00:00") = Ret (PStr "2026-02-01")
  ∧ normalize_date (PTimestamp (mk_datetime 2026 2 1 0 0 0 0))
    = Ret (PStr "2026-02-01")
  ∧ normalize_date PNaN = Ret PNone
  ∧ normalize_date (PStr "20260201") = Ret (PStr "2026-02-01")
  ∧ normalize_date (PStr "2026-W05-1") = Ret (PStr "2026-01-26")
  ∧ normalize_date (PStr "2026-02-01_09:30Z") = Ret (PStr "2026-02-01")
  ∧ normalize_date (PStr "2026-02-30") = Ret (PStr "2026-02-30").
Proof. repeat split; vm_compute; reflexivity. Qed.

(** ** The API client *)

Lemma bind_run {A B} (m : M A) (k : A → M B) (w : world) :
  (m ≫= k) w =
  match m w with
  | (Ret a, w') => k a w'
  | (Raise e, w') => (Raise e, w')
  end.
Proof. reflexivity. Qed.

Lemma authorization_eq tok :
  authorization tok = if bearer_prefixed tok then tok else "Bearer " +:+ tok.
Proof.
  unfold authorization, request_headers, bearer_prefixed.
  cbn zeta.
  assert (({["Authorization" := tok; "Content-Type" := "application/json"]}
             : gmap string string) !!! "Authorization" = tok) as E.
  { unfold lookup_total, map_lookup_total. by rewrite lookup_insert_eq. }
  rewrite E. destruct (startswith _ _); cbn [negb].
  - exact E.
  - unfold lookup_total, map_lookup_total. by rewrite lookup_insert_eq.
Qed.

(** No occurrence straddles the prefix that is added. *)
Lemma count_bearer_added tok :
  count_bearer ("Bearer " +:+ tok) = S (count_bearer tok).
Proof. reflexivity. Qed.

(** [get_deal_details] never raises: it issues one request and returns
    the document, or prints the error and returns [None]. *)
Lemma get_deal_details_run net deal_id tok w :
  let rq := deal_request deal_id tok in
  get_deal_details net deal_id tok w =
  match fetch_result (net (length (sent w)) rq) with
  | inl text =>
      (Ret (OVal PNone),
       mk_world (console w ++ ["Error fetching deal " +:+ str deal_id
                                 +:+ ": " +:+ text])
                (sent w ++ [rq]) (files w))
  | inr o => (Ret o, mk_world (console w) (sent w ++ [rq]) (files w))
  end.
Proof.
  cbn zeta. unfold get_deal_details, try_except_M, deal_request.
  rewrite bind_run. unfold requests_get. cbn [req_url].
  destruct (net _ _) as [msg|st rs loc b]; cbn [fetch_result]; [reflexivity|].
  rewrite bind_run. unfold lift, raise_for_status.
  cbn [status_code reason url].
  destruct (bool_decide (400 ≤ st < 500)%Z); [reflexivity|].
  destruct (bool_decide (500 ≤ st < 600)%Z); [reflexivity|].
  unfold response_json. cbn [body]. destruct b; reflexivity.
Qed.

Lemma fetch_result_inr r o :
  fetch_result r = inr o → ∃ st rs loc, r = Replied st rs loc (Json o).
Proof.
  destruct r as [msg|st rs loc [msg|o']]; cbn; try discriminate;
    repeat (destruct (bool_decide _)); try discriminate.
  intros [= ->]. eauto.
Qed.

(** C4 (as amended): the [Authorization] header of the request sent starts
    with "Bearer " (under some casing); a credential that already starts
    with it goes out unchanged, any other gets the prefix once; and the
    header holds one occurrence of "Bearer " plus those that start after
    the first character of the credential, so exactly one when the
    credential holds none there. *)
Theorem authorization_bearer tok :
  bearer_prefixed (authorization tok) = true
  ∧ authorization tok = (if bearer_prefixed tok then tok else "Bearer " +:+ tok)
  ∧ count_bearer (authorization tok)
    = S (match tok with
         | "" => 0%nat
         | String _ rest => count_bearer rest
         end)
  ∧ ∀ net deal_id w,
      ∃ rq, sent (get_deal_details net deal_id tok w).2 = (sent w ++ [rq])%list
            ∧ req_headers rq !! "Authorization" = Some (authorization tok).
Proof.
  rewrite authorization_eq.
  split; [|split; [|split]].
  - destruct (bearer_prefixed tok) eqn:E; [exact E|reflexivity].
  - reflexivity.
  - destruct (bearer_prefixed tok) eqn:E.
    + destruct tok as [|a rest]; [discriminate|].
      cbn [count_bearer]. by rewrite E.
    + rewrite count_bearer_added. f_equal.
      destruct tok as [|a rest]; [reflexivity|].
      cbn [count_bearer]. by rewrite E.
  - intros net deal_id w. exists (deal_request deal_id tok).
    rewrite get_deal_details_run. cbn zeta. split.
    + by destruct (fetch_result _).
    + rewrite <- authorization_eq.
      unfold authorization, deal_request, request_headers.
      cbn [req_headers]. unfold lookup_total, map_lookup_total.
      destruct (negb _); by rewrite !lookup_insert_eq.
Qed.

(** Two credentials whose header holds "Bearer " twice: one already
    prefixed, one that gets the prefix. *)
Lemma bearer_counted_twice :
  bearer_prefixed "Bearer Bearer abc" = true
  ∧ authorization "Bearer Bearer abc" = "Bearer Bearer abc"
  ∧ count_bearer (authorization "Bearer Bearer abc") = 2%nat
  ∧ bearer_prefixed "key bearer abc" = false
  ∧ authorization "key bearer abc" = "Bearer key bearer abc"
  ∧ count_bearer (authorization "key bearer abc") = 2%nat.
Proof. repeat split; vm_compute; reflexivity. Qed.

(** ** The comparator *)

Lemma filter_label_absent (row : Row) (k : pyval) :
  k ∉ row.*1 → filter (λ lv : pyval * pyval, lv.1 = k) row = [].
Proof.
  induction row as [|[l v] row IH]; [done|].
  cbn [fmap list_fmap fst]. rewrite not_elem_of_cons. intros [Hne Hni].
  rewrite filter_cons. cbn [fst]. rewrite decide_False by done. by apply IH.
Qed.

(** Under distinct labels [row.get] hands back one cell. *)
Lemma Series_get_scalar (row : Row) key :
  NoDup (row.*1) → ∃ v, Series_get row key = Scalar v.
Proof.
  unfold Series_get. induction row as [|[l v] row IH]; intros Hnd.
  - by exists PNone.
  - cbn [fmap list_fmap fst] in Hnd. apply NoDup_cons in Hnd as [Hni Hnd].
    rewrite filter_cons. cbn [fst].
    destruct (decide (l = PStr key)) as [->|Hne].
    + rewrite filter_label_absent by done. by exists v.
    + by apply IH.
Qed.

Lemma obj_get_scalar d field :
  scalar_fields d → ∃ v : pyval, default (JVal PNone) (d !! field) = JVal v.
Proof.
  intros Hd. destruct (d !! field) as [x|] eqn:E; [|by exists PNone].
  apply Hd in E as [v ->]. by exists v.
Qed.

Lemma validate_check_returns (row : Row) d c acc :
  NoDup (row.*1) → scalar_fields d →
  ∃ acc', validate_check row (ODict d) c acc = Ret acc'.
Proof.
  intros Hnd Hd. unfold validate_check.
  destruct (Series_get_scalar row (excel_col c) Hnd) as [v ->].
  cbn [obj_get scalar_of mbind res_bind].
  destruct (obj_get_scalar d (api_field c) Hd) as [x ->].
  destruct (is_date c); cbn [mbind res_bind].
  - destruct (normalize_date_returns v) as [e ->]. cbn [mbind res_bind].
    destruct (normalize_date_returns x) as [a ->].
    cbn [mbind res_bind]. destruct (bool_decide _); eauto.
  - destruct (bool_decide _); eauto.
Qed.

(** Against a JSON object of scalars and under distinct labels the
    comparison never raises. *)
Lemma validate_deal_returns (row : Row) d :
  NoDup (row.*1) → scalar_fields d →
  ∃ issues, validate_deal row (ODict d) = Ret issues.
Proof.
  intros Hnd Hd. unfold validate_deal. generalize (@nil string).
  induction checks as [|c cs IH]; intros acc; cbn [validate_loop]; [eauto|].
  destruct (validate_check_returns row d c acc Hnd Hd) as [acc' ->].
  cbn [mbind res_bind]. apply IH.
Qed.

(** A missing row value against a remote value that is absent, null or the
    empty string: no discrepancy, for every check. *)
Lemma missing_matches_absent (row : Row) (d : gmap string jval) c acc v :
  Series_get row (excel_col c) = Scalar v →
  isna v = true →
  d !! api_field c = None ∨ d !! api_field c = Some (JVal PNone)
  ∨ d !! api_field c = Some (JVal (PStr "")) →
  validate_check row (ODict d) c acc = Ret acc.
Proof.
  intros Hg Hv Hd. unfold validate_check. rewrite Hg.
  cbn [obj_get scalar_of mbind res_bind].
  assert (default (JVal PNone) (d !! api_field c) = JVal PNone
          ∨ default (JVal PNone) (d !! api_field c) = JVal (PStr ""))
    as [-> | ->]
    by (destruct Hd as [-> | [-> | ->]]; auto).
  - destruct (is_date c); cbn [mbind res_bind];
      destruct v; try discriminate; reflexivity.
  - destruct (is_date c); cbn [mbind res_bind];
      destruct v; try discriminate; reflexivity.
Qed.

(** The examples of the specification: equal prices, different prices, a
    name missing on both sides. *)
Lemma validate_deal_examples :
  validate_deal [(PStr "CPM (INR)", PInt 50)] (ODict {[ "cpm" := JVal (PInt 50) ]})
  = Ret []
  ∧ validate_deal [(PStr "CPM (INR)", PInt 50)]
      (ODict {[ "cpm" := JVal (PInt 55) ]})
    = Ret ["CPM: Expected '50', Found '55'"]
  ∧ validate_deal [(PStr "Deal Name", PNaN)] (ODict {[ "cpm" := JVal PNone ]})
    = Ret [].
Proof. repeat split; vm_compute; reflexivity. Qed.

(** C9: the comparator is to take missing, nan and null for the empty
    string on both sides.  On the remote side only None is: with the row
    price missing and the remote price nan, the row side reads '' and the
    remote side reads 'nan', and a Discrepancy is reported. *)
Theorem remote_nan_is_a_mismatch :
  validate_deal [(PStr "CPM (INR)", PNaN)] (ODict {[ "cpm" := JVal PNaN ]})
  = Ret ["CPM: Expected '', Found 'nan'"].
Proof. vm_compute. reflexivity. Qed.

(** ** The loop over the rows *)

(** One turn of the loop, spelled out. *)
Lemma process_row_run net tok results row w :
  process_row net tok results row w =
  match Series_get row "Deal ID" with
  | SubSeries _ => (Raise ValueError, w)
  | Scalar v =>
      if blank v then (Ret results, w)
      else
        match get_deal_details net v tok (announce v w) with
        | (Ret api, w2) =>
            if truthy api then
              match validate_deal row api with
              | Ret [] => (Ret (results ++ [outcome v "PASS" ""])%list, w2)
              | Ret issues =>
                  (Ret (results ++ [outcome v "FAIL" (join "; " issues)])%list,
                   w2)
              | Raise e => (Raise e, w2)
              end
            else
              (Ret (results ++ [outcome v "ERROR" "API Request Failed"])%list,
               w2)
        | (Raise e, w2) => (Raise e, w2)
        end
  end.
Proof.
  unfold process_row. rewrite bind_run. unfold lift at 1.
  destruct (Series_get row "Deal ID") as [v|vs]; cbn [scalar_of];
    [|reflexivity].
  fold (blank v). destruct (blank v); [reflexivity|].
  rewrite bind_run. unfold print at 1. fold (announce v w).
  rewrite bind_run.
  destruct (get_deal_details net v tok (announce v w)) as [[api|e] w2];
    [|reflexivity].
  rewrite bind_run.
  destruct (truthy api); [|reflexivity].
  rewrite bind_run. unfold lift.
  destruct (validate_deal row api) as [[|i issues]|e]; reflexivity.
Qed.

(** A turn that returns has skipped a blank row or appended one Outcome
    for the row, with one of the three statuses. *)
Lemma process_row_ret net tok results row w results' w' :
  process_row net tok results row w = (Ret results', w') →
  (blank (identifier row) = true ∧ results' = results)
  ∨ (blank (identifier row) = false
     ∧ ∃ o, outcome_of row o ∧ results' = (results ++ [o])%list).
Proof.
  rewrite process_row_run. unfold outcome_of, identifier.
  destruct (Series_get row "Deal ID") as [v|vs]; [|discriminate].
  destruct (blank v) eqn:Hb.
  { intros [= <- <-]. by left. }
  destruct (get_deal_details net v tok (announce v w)) as [[api|e] w2];
    [|discriminate].
  intros H. right. split; [done|].
  assert (∀ st c, st ∈ statuses →
            ∃ o, (∃ st' c', o = outcome v st' c' ∧ st' ∈ statuses)
                 ∧ (results ++ [outcome v st c])%list = (results ++ [o])%list)
    as Hmk by (intros st c Hst; eexists; split; [by exists st, c|done]).
  destruct (truthy api).
  - destruct (validate_deal row api) as [[|i issues]|e]; [| |discriminate];
      injection H as <- <-; apply Hmk; unfold statuses; set_solver.
  - injection H as <- <-. apply Hmk. unfold statuses. set_solver.
Qed.

(** The loop appends, in order, one Outcome for each row kept. *)
Lemma process_rows_ret net tok rows : ∀ results w results' w',
  process_rows net tok results rows w = (Ret results', w') →
  ∃ os, results' = (results ++ os)%list ∧ Forall2 outcome_of (kept rows) os.
Proof.
  induction rows as [|row rows IH]; intros results w results' w' H.
  - injection H as <- <-. exists []. split; [by rewrite app_nil_r|constructor].
  - cbn [process_rows] in H. rewrite bind_run in H.
    destruct (process_row net tok results row w) as [[r1|e] w1] eqn:E1;
      [|discriminate].
    apply process_row_ret in E1. apply IH in H as (os & -> & Hos).
    unfold kept. rewrite filter_cons.
    destruct E1 as [[Hb ->]|[Hb (o & Ho & ->)]].
    + exists os. split; [done|].
      rewrite decide_False by (rewrite Hb; done). done.
    + exists (o :: os). split; [by rewrite <- app_assoc|].
      rewrite decide_True by done. by constructor.
Qed.

Lemma process_row_returns net tok results (row : Row) w :
  answers_objects net → NoDup (row.*1) →
  ∃ results' w', process_row net tok results row w = (Ret results', w').
Proof.
  intros Hnet Hnd. rewrite process_row_run.
  destruct (Series_get_scalar row "Deal ID" Hnd) as [v ->].
  destruct (blank v); [eauto|].
  rewrite get_deal_details_run. cbn zeta.
  destruct (fetch_result _) as [text|o] eqn:Hf; [cbn [truthy]; eauto|].
  destruct (truthy o) eqn:Ht; [|eauto].
  apply fetch_result_inr in Hf as (st & rs & loc & Hf).
  destruct (Hnet _ _ _ _ _ _ Hf Ht) as (d & -> & Hd).
  destruct (validate_deal_returns row d Hnd Hd) as [[|i issues] ->]; eauto.
Qed.

Lemma process_rows_returns net tok rows : ∀ results w,
  answers_objects net → Forall (λ row : Row, NoDup (row.*1)) rows →
  ∃ results' w', process_rows net tok results rows w = (Ret results', w').
Proof.
  induction rows as [|row rows IH]; intros results w Hnet Hnd.
  - by exists results, w.
  - apply Forall_cons in Hnd as [Hrow Hrows]. cbn [process_rows].
    rewrite bind_run.
    destruct (process_row_returns net tok results row w Hnet Hrow)
      as (r1 & w1 & ->).
    by apply IH.
Qed.

Lemma iterrows_NoDup df :
  NoDup (columns df) → Forall (λ row : Row, NoDup (row.*1)) (iterrows df).
Proof.
  intros Hnd. unfold iterrows. apply Forall_fmap, Forall_forall.
  intros cells _. cbn. revert cells.
  induction Hnd as [|c cols Hni Hnd IH]; intros cells; [constructor|].
  destruct cells as [|x cells]; [constructor|].
  cbn [zip zip_with fmap list_fmap fst]. constructor; [|apply IH].
  intros Hin. apply Hni. apply list_elem_of_fmap in Hin as ([l y] & -> & Hin).
  by apply elem_of_zip_l in Hin.
Qed.

(** ** The report *)

Lemma outcome_of_is_outcome row o : outcome_of row o → is_outcome o.
Proof. intros (st & c & -> & _). by eexists _, _, _. Qed.

Lemma record_keys_outcomes_from os :
  Forall is_outcome os →
  foldl add_key ["Deal ID"; "Status"; "Comments"]
        (concat ((λ r : record, r.*1) <$> os))
  = ["Deal ID"; "Status"; "Comments"].
Proof.
  induction 1 as [|o os (v & st & c & ->) _ IH]; [reflexivity|].
  cbn [fmap list_fmap concat]. rewrite foldl_app. exact IH.
Qed.

Lemma record_keys_outcomes o os :
  Forall is_outcome (o :: os) →
  record_keys (o :: os) = ["Deal ID"; "Status"; "Comments"].
Proof.
  intros H. inversion H as [|? ? (v & st & c & ->) Hos]; subst.
  unfold record_keys. cbn [fmap list_fmap concat]. rewrite foldl_app.
  by apply record_keys_outcomes_from.
Qed.

(** The frame built from the Outcomes: a row of three cells for each, and
    the three columns as soon as there is one Outcome. *)
Lemma report_of_outcomes os :
  Forall is_outcome os →
  data (DataFrame_of_records os) = (λ o : record, o.*2) <$> os
  ∧ columns (DataFrame_of_records os)
    = match os with
      | [] => []
      | _ => report_columns
      end.
Proof.
  intros H. destruct os as [|o os]; [done|].
  unfold DataFrame_of_records. rewrite record_keys_outcomes by done.
  split; [|reflexivity]. cbn [data].
  apply list_eq_Forall2. unfold fmap at 1 3.
  apply Forall2_fmap, Forall_Forall2_diag.
  eapply Forall_impl; [exact H|]. by intros ? (v & st & c & ->).
Qed.

Lemma status_column_of_outcomes os :
  Forall (λ o, ∃ v st c, o = outcome v st c ∧ st ∈ statuses) os →
  Forall (λ v, ∃ st, v = PStr st ∧ st ∈ statuses)
         (column (DataFrame_of_records os) "Status").
Proof.
  intros H.
  assert (Forall is_outcome os) as Hio.
  { eapply Forall_impl; [exact H|]. intros o (v & st & c & -> & _).
    by eexists _, _, _. }
  destruct (report_of_outcomes os Hio) as [Hd Hc].
  unfold column. rewrite Hc, Hd.
  destruct os as [|o os]; [constructor|].
  cbn [report_columns list_find].
  rewrite decide_False by discriminate.
  cbn [fmap option_fmap option_map list_find].
  rewrite decide_True by reflexivity.
  cbn [fmap option_fmap option_map prod_map fst snd].
  rewrite Forall_fmap, Forall_fmap.
  eapply Forall_impl; [exact H|]. intros r (v & st & c & -> & Hst).
  cbn. by exists st.
Qed.

(** ** Whole runs *)

(** A run that ends normally has loaded the sheet, found the identifier
    column, been through every row and written the report. *)
Lemma main_ret net read file tok out w w' :
  main net read file tok out w = (Ret (), w') →
  ∃ df w1 os w2,
    read_sheet read file (reading file w) = (Ret df, w1)
    ∧ PStr "Deal ID" ∈ columns (clean_columns df)
    ∧ process_rows net tok [] (iterrows (clean_columns df)) w1 = (Ret os, w2)
    ∧ files w' = <[out := DataFrame_of_records os]> (files w2).
Proof.
  unfold main. rewrite bind_run. unfold print at 1. fold (reading file w).
  rewrite bind_run.
  destruct (read_sheet read file (reading file w)) as [[df|e] w1];
    [|discriminate].
  cbn zeta.
  destruct (bool_decide (PStr "Deal ID" ∈ columns (clean_columns df)))
    eqn:Hin; cbn [negb].
  2:{ rewrite bind_run. unfold print at 1. discriminate. }
  apply bool_decide_eq_true in Hin.
  rewrite bind_run.
  destruct (process_rows net tok [] (iterrows (clean_columns df)) w1)
    as [[os|e] w2] eqn:E; [|discriminate].
  rewrite bind_run. unfold to_excel at 1. unfold print.
  intros [= <-]. by exists df, w1, os, w2.
Qed.

(** A run ends normally and leaves a report whenever the sheet loads, has
    the identifier column under distinct labels, and the service answers
    with objects. *)
Lemma main_completes net read file tok out w df w1 :
  read_sheet read file (reading file w) = (Ret df, w1) →
  PStr "Deal ID" ∈ columns (clean_columns df) →
  NoDup (columns (clean_columns df)) →
  answers_objects net →
  ∃ w', main net read file tok out w = (Ret (), w')
        ∧ is_Some (files w' !! out).
Proof.
  intros Hl Hin Hnd Hnet. unfold main. rewrite bind_run.
  unfold print at 1. fold (reading file w). rewrite bind_run, Hl. cbn zeta.
  rewrite bool_decide_eq_true_2 by done. cbn [negb]. rewrite bind_run.
  destruct (process_rows_returns net tok (iterrows (clean_columns df)) [] w1
              Hnet (iterrows_NoDup _ Hnd)) as (os & w2 & ->).
  rewrite bind_run. unfold to_excel at 1. unfold print.
  eexists. split; [reflexivity|]. cbn [files]. by rewrite lookup_insert_eq.
Qed.

(** The end-to-end example of the specification: three rows in, two rows
    out, ERROR then PASS. *)
Lemma example_run_report :
  example_run.1 = Ret ()
  ∧ files example_run.2 !! "report.xlsx"
    = Some (mk_df report_columns
              [[PStr "D2"; PStr "ERROR"; PStr "API Request Failed"];
               [PInt 138752; PStr "PASS"; PStr ""]]).
Proof. split; vm_compute; reflexivity. Qed.

(** ** The claims about whole runs *)

(** C2: every row with an identifier is to get exactly one Outcome.  On
    a sheet of two rows, each with an identifier, and with a service that
    answers with a JSON array, [validate_deal] raises AttributeError at
    the first row ([api_data.get] on a list), nothing catches it, and the
    run ends there: one request has been sent, no report is written, and
    neither row has an Outcome. *)
Theorem identified_rows_get_no_outcome :
  let run :=
    main net_array (λ _ _, Ret two_deals_frame)
         "deals.xlsx" "token" "report.xlsx" w0 in
  id_column two_deals_frame = Some 0%nat
  ∧ Forall identified (id_cells 0 two_deals_frame)
  ∧ run.1 = Raise AttributeError
  ∧ files run.2 = ∅
  ∧ length (sent run.2) = 1%nat.
Proof.
  cbn zeta. split; [reflexivity|]. split.
  - repeat constructor; vm_compute; intros [|]; discriminate.
  - repeat split; vm_compute; reflexivity.
Qed.

(** C10: in a run that ends normally every cell of the Status column of
    the report written is PASS, FAIL or ERROR; the initial value SKIPPED
    is overwritten on every path and never appears there. *)
Theorem status_never_skipped net read file tok out w w' :
  main net read file tok out w = (Ret (), w') →
  ∃ report,
    files w' !! out = Some report
    ∧ Forall (λ v, v = PStr "PASS" ∨ v = PStr "FAIL" ∨ v = PStr "ERROR")
             (column report "Status")
    ∧ PStr "SKIPPED" ∉ column report "Status".
Proof.
  intros H. apply main_ret in H as (df & w1 & os & w2 & _ & _ & Hp & Hf).
  exists (DataFrame_of_records os). split; [by rewrite Hf, lookup_insert_eq|].
  apply process_rows_ret in Hp as (os' & -> & Hos). cbn [app].
  assert (Forall (λ o, ∃ v st c, o = outcome v st c ∧ st ∈ statuses) os')
    as Hst.
  { clear Hf.
    induction Hos as [|row o rows os'' (st & c & -> & Hst) _ IH];
      [constructor|].
    constructor; [by eexists _, st, c|done]. }
  apply status_column_of_outcomes in Hst.
  assert (∀ v, (∃ st, v = PStr st ∧ st ∈ statuses) →
               v = PStr "PASS" ∨ v = PStr "FAIL" ∨ v = PStr "ERROR")
    as Hcases.
  { intros v (st & -> & Hin). unfold statuses in Hin.
    rewrite !elem_of_cons, elem_of_nil in Hin.
    intuition (subst; auto). }
  split.
  - eapply Forall_impl; [exact Hst|]. exact Hcases.
  - intros Hin. rewrite Forall_forall in Hst.
    destruct (Hcases _ (Hst _ Hin)) as [|[|]]; discriminate.
Qed.

Lemma status_never_skipped_witness :
  ∃ report,
    files example_run.2 !! "report.xlsx" = Some report
    ∧ Forall (λ v, v = PStr "PASS" ∨ v = PStr "FAIL" ∨ v = PStr "ERROR")
             (column report "Status")
    ∧ PStr "SKIPPED" ∉ column report "Status".
Proof.
  apply (status_never_skipped example_net example_reader
           "deals.xlsx" "token" "report.xlsx" w0 example_run.2).
  vm_compute. reflexivity.
Defined.

(** C5 (as amended): for every row with an identifier whose fetch fails -
    no response at all, a 4xx or 5xx status, or a body that is not JSON -
    the error is caught inside [get_deal_details] and does not end the
    run; its text is printed to the console; the row's Outcome is appended
    with status ERROR and the fixed comment "API Request Failed"; and the
    loop goes on with the next row. *)
Theorem failed_fetch_is_error net tok results row rows w v text :
  Series_get row "Deal ID" = Scalar v →
  blank v = false →
  fetch_result (net (length (sent w)) (deal_request v tok)) = inl text →
  let o := outcome v "ERROR" "API Request Failed" in
  let w' :=
    mk_world (console w ++ ["Validating Deal ID: " +:+ str v;
                            "Error fetching deal " +:+ str v +:+ ": "
                              +:+ text])
             (sent w ++ [deal_request v tok]) (files w) in
  process_row net tok results row w = (Ret (results ++ [o])%list, w')
  ∧ process_rows net tok results (row :: rows) w
    = process_rows net tok (results ++ [o])%list rows w'.
Proof.
  intros Hg Hb Hf o w'.
  assert (process_row net tok results row w
          = (Ret (results ++ [o])%list, w')) as E.
  { rewrite process_row_run, Hg, Hb, get_deal_details_run.
    cbn [announce sent console files]. rewrite Hf. cbn [truthy].
    unfold w'. by rewrite <- app_assoc. }
  split; [exact E|]. cbn [process_rows]. by rewrite bind_run, E.
Qed.

Lemma failed_fetch_is_error_witness :
  let text :=
    "404 Client Error: Not Found for url: "
      +:+ "https://api.pubmatic.com/v3/pmp/deals/D1" in
  let o := outcome (PStr "D1") "ERROR" "API Request Failed" in
  let w' :=
    mk_world ["Validating Deal ID: D1"; "Error fetching deal D1: " +:+ text]
             [deal_request (PStr "D1") "token"] ∅ in
  process_row net_404 "token" [] row_D1 w0 = (Ret [o], w')
  ∧ process_rows net_404 "token" [] [row_D1; row_D1] w0
    = process_rows net_404 "token" [o] [row_D1] w'.
Proof.
  apply (failed_fetch_is_error net_404 "token" [] row_D1 [row_D1] w0
           (PStr "D1")); reflexivity.
Defined.

(** After a 404 the comment is the fixed text and holds nothing of the
    error's own text, which is on the console only; and a reply with a
    status outside 2xx, here 300, that carries a matching JSON object is
    not a failure at all: the row passes. *)
Lemma error_text_goes_to_console_only :
  (∃ w', process_row net_404 "token" [] row_D1 w0
         = (Ret [outcome (PStr "D1") "ERROR" "API Request Failed"], w')
       ∧ console w'
         = ["Validating Deal ID: D1";
            "Error fetching deal D1: 404 Client Error: Not Found for url: "
              +:+ "https://api.pubmatic.com/v3/pmp/deals/D1"])
  ∧ contains_substr "404 Client Error: Not Found" "API Request Failed" = false
  ∧ (∃ w', process_row net_300 "token" [] row_D1 w0
           = (Ret [outcome (PStr "D1") "PASS" ""], w')).
Proof.
  split; [|split].
  - eexists. split; [vm_compute; reflexivity|reflexivity].
  - reflexivity.
  - eexists. vm_compute. reflexivity.
Qed.

(** C1: a fetch that succeeds must lead to PASS or FAIL.  When the service
    answers 200 with the empty JSON object, [get_deal_details] returns
    that object and prints no error, yet the row is reported with status
    ERROR and the comment "API Request Failed". *)
Theorem empty_object_reported_as_error :
  (∃ w', get_deal_details net_empty_object (PStr "D1") "token" w0
         = (Ret (ODict ∅), w') ∧ console w' = [])
  ∧ ∃ w', process_row net_empty_object "token" [] row_D1 w0
          = (Ret [outcome (PStr "D1") "ERROR" "API Request Failed"], w').
Proof.
  split.
  - eexists. split; [vm_compute; reflexivity|reflexivity].
  - eexists. vm_compute. reflexivity.
Qed.

(** C3: the report is to have the three columns even when every row is
    skipped.  On a sheet whose identifier cells are all blank the run ends
    normally and writes a sheet with no column at all. *)
Theorem empty_report_has_no_columns :
  ∃ w', main example_net (λ _ _, Ret blank_frame)
             "deals.xlsx" "token" "report.xlsx" w0 = (Ret (), w')
        ∧ files w' !! "report.xlsx" = Some (mk_df [] []).
Proof. eexists. split; [vm_compute; reflexivity|reflexivity]. Qed.

(** With at least one row kept, the report has the three columns. *)
Lemma report_has_three_columns net read file tok out w w' report :
  main net read file tok out w = (Ret (), w') →
  files w' !! out = Some report →
  data report ≠ [] →
  columns report = report_columns.
Proof.
  intros H Hrep Hne.
  apply main_ret in H as (df & w1 & os & w2 & _ & _ & Hp & Hf).
  rewrite Hf, lookup_insert_eq in Hrep. injection Hrep as <-.
  apply process_rows_ret in Hp as (os' & -> & Hos). cbn [app] in *.
  assert (Forall is_outcome os') as Hio.
  { clear Hf Hne.
    induction Hos as [|row o rows os'' Ho _ IH]; [constructor|].
    constructor; [by eapply outcome_of_is_outcome|done]. }
  destruct (report_of_outcomes os' Hio) as [Hd Hc].
  rewrite Hc. destruct os'; [by rewrite Hd in Hne|done].
Qed.

(** ** The loader: finding the header row *)

Lemma find_header_row_first i rows k :
  find_header_row i rows = Some k ↔
  ∃ j cells, k = (i + j)%nat ∧ rows !! j = Some cells
             ∧ mentions_deal_id cells = true
             ∧ ∀ j' cells', (j' < j)%nat → rows !! j' = Some cells' →
                            mentions_deal_id cells' = false.
Proof.
  revert i. induction rows as [|cells rows IH]; intros i;
    cbn [find_header_row].
  - split; [discriminate|]. intros (j & c & _ & H & _). by destruct j.
  - destruct (mentions_deal_id cells) eqn:Hm.
    + split.
      * intros [= <-]. exists 0%nat, cells. repeat split; [lia|done|lia].
      * intros (j & c & -> & Hj & Hc & Hfirst).
        destruct j as [|j]; [f_equal; lia|].
        specialize (Hfirst 0%nat cells ltac:(lia) eq_refl). congruence.
    + rewrite IH. split.
      * intros (j & c & -> & Hj & Hc & Hfirst). exists (S j), c.
        repeat split; [lia|done|done|].
        intros [|j'] c' Hlt Hl; [by injection Hl as <-|].
        apply (Hfirst j' c'); [lia|done].
      * intros (j & c & -> & Hj & Hc & Hfirst). destruct j as [|j].
        { injection Hj as <-. congruence. }
        exists j, c. repeat split; [lia|done|done|].
        intros j' c' Hlt Hl. apply (Hfirst (S j') c'); [lia|done].
Qed.

Lemma find_header_row_none i rows :
  find_header_row i rows = None
  ↔ Forall (λ cells, mentions_deal_id cells = false) rows.
Proof.
  revert i. induction rows as [|cells rows IH]; intros i;
    cbn [find_header_row].
  - split; [constructor|done].
  - destruct (mentions_deal_id cells) eqn:Hm.
    + split; [discriminate|]. intros H.
      apply Forall_cons in H as [H _]. congruence.
    + rewrite IH. split; [by constructor|]. intros H.
      by apply Forall_cons in H as [_ H].
Qed.

(** X2: when the raw sheet can be read and row [k] is the first of its
    rows that mentions the marker, the loading block announces "Found
    headers at row k", reads the sheet a second time with [header=k] and
    hands back that table; later rows that mention the marker too are not
    considered. *)
Theorem header_row_is_first_mention read file w df_raw k cells df :
  read file HeaderNone = Ret df_raw →
  data df_raw !! k = Some cells →
  mentions_deal_id cells = true →
  (∀ j cells', (j < k)%nat → data df_raw !! j = Some cells' →
               mentions_deal_id cells' = false) →
  read file (HeaderRow k) = Ret df →
  read_sheet read file w = (Ret df, found_headers k w).
Proof.
  intros Hraw Hk Hm Hfirst Hread.
  assert (find_header_row 0 (data df_raw) = Some k) as Hfind.
  { apply find_header_row_first. exists k, cells. done. }
  unfold read_sheet, try_except_M. rewrite bind_run. unfold lift at 1.
  rewrite Hraw, Hfind, bind_run. unfold print at 1, lift. by rewrite Hread.
Qed.

Lemma header_row_is_first_mention_witness :
  read_sheet titled_reader "deals.xlsx" w0
  = (Ret example_frame, found_headers 1 w0).
Proof.
  apply (header_row_is_first_mention titled_reader "deals.xlsx" w0
           titled_raw_frame 1
           [PStr " Deal ID"; PStr "Deal Name"; PStr "CPM (INR)"]
           example_frame); try reflexivity.
  intros [|j] cells' Hj Hl; [|lia]. injection Hl as <-. reflexivity.
Defined.

(** X3: when no row of the raw sheet mentions the marker, the loading
    block says so on the console and reads the sheet with the reader's
    default header, the first row. *)
Theorem no_mention_reads_default read file w df_raw df :
  read file HeaderNone = Ret df_raw →
  Forall (λ cells, mentions_deal_id cells = false) (data df_raw) →
  read file HeaderDefault = Ret df →
  read_sheet read file w = (Ret df, no_headers w).
Proof.
  intros Hraw Hnone Hread. apply (find_header_row_none 0%nat) in Hnone.
  unfold read_sheet, try_except_M. rewrite bind_run. unfold lift at 1.
  rewrite Hraw, Hnone, bind_run. unfold print at 1, lift. by rewrite Hread.
Qed.

Lemma no_mention_reads_default_witness :
  read_sheet unmarked_reader "deals.xlsx" w0
  = (Ret unmarked_frame, no_headers w0).
Proof.
  apply (no_mention_reads_default unmarked_reader "deals.xlsx" w0
           unmarked_raw_frame unmarked_frame); try reflexivity.
  repeat constructor.
Defined.

(** ** The loader: fatal errors *)

(** The loading block touches neither the network nor the files. *)
Lemma read_sheet_quiet read file w r w' :
  read_sheet read file w = (r, w') → sent w' = sent w ∧ files w' = files w.
Proof.
  unfold read_sheet, try_except_M. rewrite bind_run. unfold lift at 1.
  destruct (read file HeaderNone) as [df_raw|e].
  - destruct (find_header_row 0 (data df_raw)) as [k|];
      rewrite bind_run; unfold print at 1, lift;
      (destruct (read file _) as [df|e];
       [by intros [= <- <-]|]);
      (destruct (is_Exception e);
       [rewrite bind_run; unfold print, sys_exit, raise|];
       by intros [= <- <-]).
  - destruct (is_Exception e);
      [rewrite bind_run; unfold print, sys_exit, raise|]; by intros [= <- <-].
Qed.

(** X4: when the first read of the file raises an exception, the run
    prints "Reading ..." and "Failed to read Excel file: " with the text
    of the exception, and exits with code 1; it sends no request and
    writes no file. *)
Theorem unreadable_sheet_exits read net file tok out w e :
  read file HeaderNone = Raise e →
  is_Exception e = true →
  main net read file tok out w
  = (Raise (SystemExit 1),
     mk_world (console w ++ ["Reading " +:+ file +:+ "...";
                             "Failed to read Excel file: " +:+ exn_text e])
              (sent w) (files w)).
Proof.
  intros Hr He. unfold main. rewrite bind_run. unfold print at 1.
  rewrite bind_run. unfold read_sheet, try_except_M. rewrite bind_run.
  unfold lift at 1. rewrite Hr, He, bind_run. unfold print, sys_exit, raise.
  cbn [console sent files]. by rewrite <- app_assoc.
Qed.

Lemma unreadable_sheet_exits_witness :
  main net_404 failing_reader "deals.xlsx" "token" "report.xlsx" w0
  = (Raise (SystemExit 1),
     mk_world ["Reading deals.xlsx...";
               "Failed to read Excel file: "
                 +:+ "No such file or directory: 'deals.xlsx'"]
              [] ∅).
Proof.
  apply (unreadable_sheet_exits failing_reader net_404 "deals.xlsx" "token"
           "report.xlsx" w0
           (ReadError "No such file or directory: 'deals.xlsx'"));
    reflexivity.
Defined.

Lemma clean_label_deal_id l :
  clean_label l = PStr "Deal ID" ↔ isna l = false ∧ strip (str l) = "Deal ID".
Proof.
  unfold clean_label, notnull. destruct (isna l) eqn:E; cbn [negb].
  - split; [|by intros [? _]]. intros ->. discriminate.
  - split; [by intros [= ->]|]. by intros [_ ->].
Qed.

Lemma Deal_ID_in_clean_columns df :
  PStr "Deal ID" ∈ columns (clean_columns df)
  ↔ ∃ l, l ∈ columns df ∧ isna l = false ∧ strip (str l) = "Deal ID".
Proof.
  cbn [clean_columns columns]. rewrite list_elem_of_fmap. split.
  - intros (l & H & Hin). symmetry in H. apply clean_label_deal_id in H.
    by exists l.
  - intros (l & Hin & H). exists l. split; [|done]. symmetry.
    by apply clean_label_deal_id.
Qed.

(** X5: after the labels are cleaned, the test ['Deal ID' not in
    df.columns] finds the identifier column exactly when some label of the
    loaded table is not missing and its text, trimmed of surrounding
    whitespace, is "Deal ID" letter for letter: unlike the header scan,
    this test is case-sensitive and wants the whole label. *)
Theorem identifier_column_found_after_cleaning df :
  bool_decide (PStr "Deal ID" ∈ columns (clean_columns df)) = true
  ↔ ∃ l, l ∈ columns df ∧ isna l = false ∧ strip (str l) = "Deal ID".
Proof. rewrite bool_decide_eq_true. apply Deal_ID_in_clean_columns. Qed.

(** X6: when the table loads but no label trims to "Deal ID", the run
    prints the cleaned labels after "Error: 'Deal ID' column not found.
    Available columns: " and exits with code 1; it sends no request and
    writes no file. *)
Theorem missing_identifier_column_exits read net file tok out w df w1 :
  read_sheet read file (reading file w) = (Ret df, w1) →
  (∀ l, l ∈ columns df → isna l = true ∨ strip (str l) ≠ "Deal ID") →
  main net read file tok out w
  = (Raise (SystemExit 1),
     mk_world (console w1
                ++ ["Error: 'Deal ID' column not found. Available columns: "
                      +:+ repr_list (clean_label <$> columns df)])
              (sent w) (files w)).
Proof.
  intros Hl Hno. unfold main. rewrite bind_run. unfold print at 1.
  fold (reading file w). rewrite bind_run, Hl. cbn zeta.
  pose proof (read_sheet_quiet _ _ _ _ _ Hl) as [Hs Hf].
  cbn [reading sent files] in Hs, Hf.
  rewrite bool_decide_eq_false_2.
  2:{ rewrite Deal_ID_in_clean_columns.
      intros (l & Hin & Hna & Hst). destruct (Hno l Hin); congruence. }
  cbn [negb]. rewrite bind_run. unfold print, sys_exit, raise.
  cbn [clean_columns columns]. by rewrite Hs, Hf.
Qed.

Lemma missing_identifier_column_exits_witness :
  main net_404 unmarked_reader "deals.xlsx" "token" "report.xlsx" w0
  = (Raise (SystemExit 1),
     mk_world ["Reading deals.xlsx...";
               "Could not find 'Deal ID' header row. Using default.";
               "Error: 'Deal ID' column not found. Available columns: "
                 +:+ "['Name', 'CPM']"]
              [] ∅).
Proof.
  apply (missing_identifier_column_exits unmarked_reader net_404 "deals.xlsx"
           "token" "report.xlsx" w0 unmarked_frame
           (no_headers (reading "deals.xlsx" w0))); [reflexivity|].
  intros l Hl. right. cbn [unmarked_frame columns] in Hl.
  rewrite !elem_of_cons, elem_of_nil in Hl.
  destruct Hl as [->|[->|[]]]; vm_compute; discriminate.
Defined.

(** ** One row: skipping, fetching, judging *)

Lemma rstrip_empty s : rstrip s = "" ↔ all_space s = true.
Proof.
  induction s as [|a s IH]; [done|]. cbn [rstrip all_space].
  rewrite andb_true_iff, <- IH.
  destruct (rstrip s) eqn:E.
  - destruct (isspace a); split; try done; intros [? _]; done.
  - split; [discriminate|]. intros [_ ?]. discriminate.
Qed.

Lemma all_space_lstrip s : all_space (lstrip s) = all_space s.
Proof.
  induction s as [|a s IH]; [done|]. cbn [lstrip all_space].
  destruct (isspace a) eqn:E; [done|]. cbn [all_space]. by rewrite E.
Qed.

Lemma strip_empty s : strip s = "" ↔ all_space s = true.
Proof. unfold strip. by rewrite rstrip_empty, all_space_lstrip. Qed.

Lemma app_singleton_neq {A} (l : list A) x : (l ++ [x])%list ≠ l.
Proof.
  intros H. apply (f_equal length) in H. rewrite length_app in H.
  cbn in H. lia.
Qed.

(** X7: for a row whose identifier cell is a text, the turn of the loop
    returns with everything as it was - no Outcome, nothing printed, no
    request sent - exactly when the text consists of whitespace only (the
    empty text included). *)
Theorem text_identifier_skipped_iff_blank net tok results (row : Row) w s :
  Series_get row "Deal ID" = Scalar (PStr s) →
  (process_row net tok results row w = (Ret results, w)
   ↔ all_space s = true).
Proof.
  intros Hg. rewrite process_row_run, Hg. unfold blank. cbn [isna str orb].
  rewrite <- strip_empty.
  destruct (bool_decide (strip s = "")) eqn:Hb.
  - apply bool_decide_eq_true in Hb. done.
  - apply bool_decide_eq_false in Hb. split; [|done]. intros H. exfalso.
    rewrite get_deal_details_run in H. cbn zeta in H.
    destruct (fetch_result _) as [text|o].
    + cbn [truthy] in H. injection H as H _. by apply app_singleton_neq in H.
    + destruct (truthy o).
      * destruct (validate_deal row o) as [[|i issues]|e]; try discriminate;
          injection H as H _; by apply app_singleton_neq in H.
      * injection H as H _. by apply app_singleton_neq in H.
Qed.

Lemma text_identifier_skipped_iff_blank_witness :
  process_row net_404 "token" [] row_spaces w0 = (Ret [], w0)
  ↔ all_space "   " = true.
Proof.
  apply (text_identifier_skipped_iff_blank net_404 "token" [] row_spaces w0).
  reflexivity.
Defined.


(** X9: for a row with an identifier whose turn of the loop returns, the
    Outcome appended is the ERROR Outcome exactly when the fetch failed or
    the document fetched is one Python takes for false (None, an empty
    object, an empty array, zero, the empty text, false). *)
Theorem error_iff_failed_or_falsy net tok results (row : Row) w v results' w' :
  Series_get row "Deal ID" = Scalar v →
  blank v = false →
  process_row net tok results row w = (Ret results', w') →
  (results' = (results ++ [outcome v "ERROR" "API Request Failed"])%list
   ↔ match fetch_result (net (length (sent w)) (deal_request v tok)) with
     | inl _ => True
     | inr o => truthy o = false
     end).
Proof.
  intros Hg Hb. rewrite process_row_run, Hg, Hb, get_deal_details_run.
  cbn zeta. cbn [announce sent].
  destruct (fetch_result _) as [text|o].
  { cbn [truthy]. by intros [= <- <-]. }
  destruct (truthy o).
  - destruct (validate_deal row o) as [[|i issues]|e]; [| |discriminate];
      intros [= <- <-]; (split; [|done]); intros H;
      apply app_inv_head in H; discriminate.
  - by intros [= <- <-].
Qed.

Lemma error_iff_failed_or_falsy_witness :
  [outcome (PStr "D1") "ERROR" "API Request Failed"]
  = ([] ++ [outcome (PStr "D1") "ERROR" "API Request Failed"])%list
  ↔ truthy (ODict ∅) = false.
Proof.
  apply (error_iff_failed_or_falsy net_empty_object "token" [] row_D1 w0
           (PStr "D1")
           [outcome (PStr "D1") "ERROR" "API Request Failed"]
           (process_row net_empty_object "token" [] row_D1 w0).2);
    reflexivity.
Defined.

(** X10: when the service answers the request of a row with a JSON
    document that is not an object and that Python takes for true (a
    non-empty array, a non-zero number, a non-empty text, true),
    [validate_deal] raises AttributeError at its first [api_data.get];
    nothing catches it, so the loop stops at that row with no Outcome for
    it or for the rows after it, and no report is written. *)
Theorem non_object_document_crashes net tok results (row : Row) rows w v o :
  Series_get row "Deal ID" = Scalar v →
  blank v = false →
  fetch_result (net (length (sent w)) (deal_request v tok)) = inr o →
  truthy o = true →
  (∀ d, o ≠ ODict d) →
  ∃ w', process_rows net tok results (row :: rows) w
        = (Raise AttributeError, w')
        ∧ files w' = files w.
Proof.
  intros Hg Hb Hf Ht Hno. cbn [process_rows]. rewrite bind_run.
  rewrite process_row_run, Hg, Hb, get_deal_details_run. cbn zeta.
  cbn [announce sent]. rewrite Hf, Ht.
  assert (validate_deal row o = Raise AttributeError) as ->.
  { destruct o as [d| |]; [by destruct (Hno d)|reflexivity|reflexivity]. }
  eexists. split; [reflexivity|reflexivity].
Qed.

Lemma non_object_document_crashes_witness :
  ∃ w', process_rows net_array "token" [] [row_D1; row_D1] w0
        = (Raise AttributeError, w')
        ∧ files w' = files w0.
Proof.
  apply (non_object_document_crashes net_array "token" [] row_D1 [row_D1] w0
           (PStr "D1") (OList [PInt 1])); try reflexivity.
  intros d. discriminate.
Defined.

(** ** The comparator, check by check *)

(** One check leaves the list as it is or appends one Discrepancy, and
    this only for two texts that differ. *)
Lemma validate_check_ret row api c acc acc' :
  validate_check row api c acc = Ret acc' →
  acc' = acc ∨ ∃ a b, a ≠ b ∧ acc' = (acc ++ [discrepancy c a b])%list.
Proof.
  unfold validate_check.
  destruct (obj_get api (api_field c)) as [api_val|e]; [|discriminate].
  destruct (scalar_of (Series_get row (excel_col c))) as [excel_val|e];
    [|discriminate].
  cbn [mbind res_bind].
  destruct (is_date c); cbn [mbind res_bind].
  - destruct (normalize_date excel_val) as [ev|e]; [|discriminate].
    cbn [mbind res_bind].
    destruct (normalize_date api_val) as [av|e]; [|discriminate].
    cbn [mbind res_bind].
    destruct (bool_decide _) eqn:Hd; intros [= <-]; [|by left].
    apply bool_decide_eq_true in Hd. right. eauto.
  - destruct (bool_decide _) eqn:Hd; intros [= <-]; [|by left].
    apply bool_decide_eq_true in Hd. right. eauto.
Qed.

Lemma validate_loop_ret row api cs : ∀ acc issues,
  validate_loop row api cs acc = Ret issues →
  ∃ cs' new, sublist cs' cs ∧ issues = (acc ++ new)%list
             ∧ Forall2 reports cs' new.
Proof.
  induction cs as [|c cs IH]; intros acc issues; cbn [validate_loop].
  - intros [= <-]. exists [], []. by rewrite app_nil_r.
  - destruct (validate_check row api c acc) as [acc1|e] eqn:E; [|discriminate].
    cbn [mbind res_bind]. intros H.
    apply IH in H as (cs' & new & Hsub & -> & Hrep).
    apply validate_check_ret in E as [->|(a & b & Hab & ->)].
    + exists cs', new. split; [by apply sublist_cons|done].
    + exists (c :: cs'), (discrepancy c a b :: new).
      split; [by apply sublist_skip|]. split; [by rewrite <- app_assoc|].
      constructor; [by exists a, b|done].
Qed.

(** X11: the list [validate_deal] returns holds at most one Discrepancy
    per check, in the order of the checks: there is a selection of the
    five checks, in their order, whose Discrepancies - each "<label>:
    Expected '<a>', Found '<b>'" for two texts a and b that differ - are
    the list; so the list never has more than five entries. *)
Theorem discrepancies_follow_the_checks row api issues :
  validate_deal row api = Ret issues →
  ∃ cs, sublist cs checks ∧ Forall2 reports cs issues
        ∧ (length issues ≤ 5)%nat.
Proof.
  intros H. apply validate_loop_ret in H as (cs & new & Hsub & -> & Hrep).
  exists cs. cbn [app]. split; [done|]. split; [done|].
  rewrite <- (Forall2_length _ _ _ Hrep).
  by apply sublist_length in Hsub.
Qed.

Lemma discrepancies_follow_the_checks_witness :
  ∃ cs, sublist cs checks
        ∧ Forall2 reports cs ["Deal Name: Expected 'Summer', Found 'Winter'"]
        ∧ (length ["Deal Name: Expected 'Summer', Found 'Winter'"] ≤ 5)%nat.
Proof.
  apply (discrepancies_follow_the_checks row_D1
           (ODict {[ "name" := JVal (PStr "Winter") ]})).
  vm_compute. reflexivity.
Defined.

(** What [normalize_date] returns is never nan or NaT, so the two
    missing-value tests of the comparator agree on it. *)
Lemma normalize_date_result x r :
  normalize_date x = Ret r → r = PNone ∨ ∃ t, r = PStr t.
Proof.
  destruct x as [v|v [|v' vs]|items].
  - rewrite normalize_date_scalar. intros [= <-].
    destruct (isna v); eauto.
  - unfold normalize_date. cbn [isna_test mbind res_bind].
    destruct (isna v); intros [= <-]; eauto.
  - discriminate.
  - intros [= <-]. eauto.
Qed.

Lemma normalized_same_text x r :
  normalize_date x = Ret r →
  (if notnull r then str r else "") = (if is_not_None r then str r else "").
Proof.
  intros H. by apply normalize_date_result in H as [->|[t ->]].
Qed.

Lemma validate_check_same (row : Row) (d : gmap string jval) c acc v :
  Series_get row (excel_col c) = Scalar v →
  d !! api_field c = Some (JVal v) →
  (is_date c = false → same_on_both_sides v = true) →
  validate_check row (ODict d) c acc = Ret acc.
Proof.
  intros Hg Hd Hs. unfold validate_check. rewrite Hg.
  cbn [obj_get scalar_of mbind res_bind]. rewrite Hd.
  cbn [default from_option id].
  destruct (is_date c); cbn [mbind res_bind].
  - destruct (normalize_date_returns v) as [r Hr]. rewrite Hr.
    cbn [mbind res_bind jval_is_not_None jval_str].
    rewrite (normalized_same_text v r Hr).
    by rewrite bool_decide_eq_false_2 by (intros H; by apply H).
  - specialize (Hs eq_refl). cbn [jval_is_not_None jval_str].
    assert ((if notnull v then str v else "")
            = (if is_not_None v then str v else "")) as ->
      by (by destruct v).
    by rewrite bool_decide_eq_false_2 by (intros H; by apply H).
Qed.

(** X12: a row and a Remote Record that hold the same value under every
    one of the five checks give an empty list, provided the value of each
    check that is not a date is neither nan nor NaT.  For the two date
    checks nan and NaT are fine as well: [normalize_date] turns them into
    None on both sides. *)
Theorem same_values_pass (row : Row) (d : gmap string jval) :
  Forall (λ c, ∃ v, Series_get row (excel_col c) = Scalar v
                    ∧ d !! api_field c = Some (JVal v)
                    ∧ (is_date c = false → same_on_both_sides v = true))
         checks →
  validate_deal row (ODict d) = Ret [].
Proof.
  unfold validate_deal. generalize (@nil string).
  induction checks as [|c cs IH]; intros acc H; [done|].
  apply Forall_cons in H as [(v & Hg & Hd & Hs) H]. cbn [validate_loop].
  rewrite (validate_check_same row d c acc v Hg Hd Hs). cbn [mbind res_bind].
  by apply IH.
Qed.

Lemma same_values_pass_witness :
  validate_deal row_full (ODict record_full) = Ret [].
Proof.
  apply (same_values_pass row_full record_full).
  unfold checks.
  repeat (apply Forall_cons; split);
    [exists (PStr "Winter")|exists (PInt 50)|exists (PStr "2026-02-01")
    |exists PNaT|exists PNone|apply Forall_nil];
    try (split; [reflexivity|split; [vm_compute; reflexivity|]]);
    try done.
Defined.

(** X13: a date check compares days only.  When the row holds a date/time
    value and the Remote Record a text with a "T" whose part before the
    first "T" is what [strftime('%Y-%m-%d')] prints for that value (from
    the year 1000 on, its day as YYYY-MM-DD), the check adds no
    Discrepancy, whatever the times of day on either side. *)
Theorem date_check_ignores_time (row : Row) (d : gmap string jval)
    c acc dt s :
  is_date c = true →
  Series_get row (excel_col c) = Scalar (PTimestamp dt) →
  d !! api_field c = Some (JVal (PStr s)) →
  contains_char "T" s = true →
  split_head "T" s = strftime_ymd dt →
  validate_check row (ODict d) c acc = Ret acc.
Proof.
  intros Hc Hg Hd HT Hs.
  assert (normalize_date (PStr s) = Ret (PStr (strftime_ymd dt))) as Es.
  { rewrite normalize_date_scalar. cbn [isna]. by rewrite HT, Hs. }
  unfold validate_check. rewrite Hg, Hc.
  cbn [obj_get scalar_of mbind res_bind]. rewrite Hd.
  cbn [default from_option id]. rewrite Es, normalize_date_scalar.
  cbn [isna mbind res_bind notnull negb is_not_None str jval_is_not_None
         jval_str].
  by rewrite bool_decide_eq_false_2 by (intros H; by apply H).
Qed.

Lemma date_check_ignores_time_witness :
  validate_check row_dated
    (ODict {[ "startDate" := JVal (PStr "2026-02-01T09:31:18Z") ]})
    start_date_check []
  = Ret [].
Proof.
  apply (date_check_ignores_time row_dated
           {[ "startDate" := JVal (PStr "2026-02-01T09:31:18Z") ]}
           start_date_check [] (mk_datetime 2026 2 1 0 0 0 0)
           "2026-02-01T09:31:18Z"); reflexivity.
Defined.

(** Below the year 1000 the two sides print one day in two ways: the
    date value of the row without the leading zero of its year, the text
    of the record, cut at its "T", with it; the check reports them as
    different. *)
Lemma date_check_year_999 :
  validate_check row_year_999
    (ODict {[ "startDate" := JVal (PStr "0999-01-01T00:00:00Z") ]})
    start_date_check []
  = Ret ["Start Date: Expected '999-01-01', Found '0999-01-01'"].
Proof. vm_compute. reflexivity. Qed.

(** ** Normalizing twice *)

(** X14: a date/time value is normalized to the text
    [strftime('%Y-%m-%d')] prints for it; from the year 1000 on that text
    has the canonical shape YYYY-MM-DD; and in every year normalizing the
    text again changes nothing. *)
Theorem date_value_normalizes_to_fixed_point d :
  valid_datetime d = true →
  normalize_date (PTimestamp d) = Ret (PStr (strftime_ymd d))
  ∧ (1000 ≤ year d → is_canonical (strftime_ymd d) = true)
  ∧ (normalize_date (PTimestamp d) ≫= λ v : pyval, normalize_date v)
    = normalize_date (PTimestamp d).
Proof.
  intros Hv. split; [reflexivity|]. split.
  - intros Hy. apply strftime_ymd_canonical; [done|].
    unfold valid_datetime in Hv. rewrite !andb_true_iff, !N.leb_le in Hv.
    lia.
  - change (normalize_date (PStr (strftime_ymd d))
            = Ret (PStr (strftime_ymd d))).
    by apply strftime_fixed.
Qed.

Lemma date_value_normalizes_to_fixed_point_witness :
  normalize_date (PTimestamp (mk_datetime 2026 2 1 9 30 0 0))
  = Ret (PStr (strftime_ymd (mk_datetime 2026 2 1 9 30 0 0)))
  ∧ (1000 ≤ 2026 →
     is_canonical (strftime_ymd (mk_datetime 2026 2 1 9 30 0 0)) = true)
  ∧ (normalize_date (PTimestamp (mk_datetime 2026 2 1 9 30 0 0))
       ≫= λ v : pyval, normalize_date v)
    = normalize_date (PTimestamp (mk_datetime 2026 2 1 9 30 0 0)).
Proof.
  apply (date_value_normalizes_to_fixed_point (mk_datetime 2026 2 1 9 30 0 0)).
  reflexivity.
Defined.

(** In the year 999 the text printed is "999-01-01": not canonical, and
    yet a fixed point, since [fromisoformat] does not read it. *)
Lemma year_999_fixed_point :
  normalize_date (PTimestamp (mk_datetime 999 1 1 0 0 0 0))
  = Ret (PStr "999-01-01")
  ∧ is_canonical "999-01-01" = false
  ∧ fromisoformat "999-01-01" = None
  ∧ normalize_date (PStr "999-01-01") = Ret (PStr "999-01-01").
Proof. repeat split; vm_compute; reflexivity. Qed.

(** X15: on a text with no "T" and no blank, normalizing is idempotent:
    the text is either parsed and printed as a date, and what is printed
    normalizes to itself, or passed through as it is, and is passed
    through again. *)
Theorem normalize_date_idempotent_on_plain_text s :
  contains_char "T" s = false →
  contains_char " " s = false →
  (normalize_date (PStr s) ≫= λ v : pyval, normalize_date v)
  = normalize_date (PStr s).
Proof.
  intros HT Hsp. rewrite normalize_date_plain by done.
  cbn [mbind res_bind].
  destruct (fromisoformat s) as [d|] eqn:E.
  - by apply strftime_fixed, (fromisoformat_valid s).
  - rewrite normalize_date_plain by done. by rewrite E.
Qed.

Lemma normalize_date_idempotent_on_plain_text_witness :
  (normalize_date (PStr "0999W011") ≫= λ v : pyval, normalize_date v)
  = normalize_date (PStr "0999W011").
Proof.
  apply (normalize_date_idempotent_on_plain_text "0999W011"); reflexivity.
Defined.

(** ** Whole runs: comments, files, requests, exceptions *)

Lemma discrepancy_nonempty c a b : discrepancy c a b ≠ "".
Proof. unfold discrepancy. by destruct (label c). Qed.

Lemma join_nonempty sep x l : x ≠ "" → join sep (x :: l) ≠ "".
Proof. intros Hx. destruct l; cbn [join]; [done|]. by destruct x. Qed.

Lemma validate_deal_issues_nonempty row api issues :
  validate_deal row api = Ret issues → Forall (λ i, i ≠ "") issues.
Proof.
  intros H. apply validate_loop_ret in H as (cs & new & _ & -> & Hrep).
  cbn [app].
  induction Hrep as [|c i cs new (a & b & _ & ->) _ IH]; constructor;
    [apply discrepancy_nonempty|done].
Qed.

Lemma process_row_comment net tok results row w results' w' :
  process_row net tok results row w = (Ret results', w') →
  results' = results
  ∨ ∃ v st c, comment_fits st c
              ∧ results' = (results ++ [outcome v st c])%list.
Proof.
  rewrite process_row_run.
  destruct (Series_get row "Deal ID") as [v|vs]; [|discriminate].
  destruct (blank v); [intros [= <- <-]; by left|].
  destruct (get_deal_details net v tok (announce v w)) as [[api|e] w2];
    [|discriminate].
  destruct (truthy api).
  - destruct (validate_deal row api) as [[|i issues]|e] eqn:Hv;
      [| |discriminate];
      intros [= <- <-]; right; eexists v, _, _; (split; [|reflexivity]).
    + left. done.
    + right; left. split; [done|]. apply join_nonempty.
      apply validate_deal_issues_nonempty in Hv.
      by apply Forall_cons in Hv as [? _].
  - intros [= <- <-]. right. eexists v, _, _. split; [|reflexivity].
    right; right. done.
Qed.

(** What every returning turn appends holds of all that a returning loop
    appends. *)
Lemma process_rows_Forall net tok (P : record → Prop) :
  (∀ results row w results' w',
     process_row net tok results row w = (Ret results', w') →
     results' = results ∨ ∃ o, P o ∧ results' = (results ++ [o])%list) →
  ∀ rows results w results' w',
    process_rows net tok results rows w = (Ret results', w') →
    ∃ os, results' = (results ++ os)%list ∧ Forall P os.
Proof.
  intros Hrow rows. induction rows as [|row rows IH]; intros results w r' w' H.
  - injection H as <- <-. exists []. by rewrite app_nil_r.
  - cbn [process_rows] in H. rewrite bind_run in H.
    destruct (process_row net tok results row w) as [[r1|e] w1] eqn:E1;
      [|discriminate].
    apply Hrow in E1. apply IH in H as (os & -> & Hos).
    destruct E1 as [->|(o & Ho & ->)].
    + by exists os.
    + exists (o :: os). split; [by rewrite <- app_assoc|by constructor].
Qed.

(** X16: in the report of a run that ends normally every row has three
    cells, and its comments go with its status: empty for PASS, not empty
    for FAIL (the Discrepancies joined by "; "), and the fixed text "API
    Request Failed" for ERROR. *)
Theorem comments_fit_the_status net read file tok out w w' :
  main net read file tok out w = (Ret (), w') →
  ∃ report,
    files w' !! out = Some report
    ∧ Forall (λ cells, ∃ v st c, cells = [v; PStr st; PStr c]
                                 ∧ comment_fits st c)
             (data report).
Proof.
  intros H. apply main_ret in H as (df & w1 & os & w2 & _ & _ & Hp & Hf).
  exists (DataFrame_of_records os). split; [by rewrite Hf, lookup_insert_eq|].
  apply (process_rows_Forall net tok
           (λ o, ∃ v st c, comment_fits st c ∧ o = outcome v st c)) in Hp
    as (os' & -> & Hos).
  2:{ intros results row wa r' wb E. apply process_row_comment in E
        as [->|(v & st & c & Hc & ->)]; [by left|right].
      eexists. split; [|reflexivity]. by exists v, st, c. }
  cbn [app].
  assert (Forall is_outcome os') as Hio.
  { eapply Forall_impl; [exact Hos|]. intros o (v & st & c & _ & ->).
    by exists v, st, c. }
  rewrite (proj1 (report_of_outcomes os' Hio)), Forall_fmap.
  eapply Forall_impl; [exact Hos|]. intros o (v & st & c & Hc & ->).
  by exists v, st, c.
Qed.

Lemma comments_fit_the_status_witness :
  ∃ report,
    files example_run.2 !! "report.xlsx" = Some report
    ∧ Forall (λ cells, ∃ v st c, cells = [v; PStr st; PStr c]
                                 ∧ comment_fits st c)
             (data report).
Proof.
  apply (comments_fit_the_status example_net example_reader
           "deals.xlsx" "token" "report.xlsx" w0 example_run.2).
  vm_compute. reflexivity.
Defined.

Lemma get_deal_details_files net v tok w :
  files (get_deal_details net v tok w).2 = files w
  ∧ sent (get_deal_details net v tok w).2
    = (sent w ++ [deal_request v tok])%list.
Proof.
  rewrite get_deal_details_run. cbn zeta. by destruct (fetch_result _).
Qed.

(** One turn of the loop writes no file, and sends one request when the
    row is kept, none when it is skipped. *)
Lemma process_row_effects net tok results row w r w' :
  process_row net tok results row w = (r, w') →
  files w' = files w
  ∧ (r = Raise ValueError ∧ sent w' = sent w
     ∨ sent w' = (sent w ++ (if blank (identifier row) then []
                             else [deal_request (identifier row) tok]))%list
       ∧ ∃ v, Series_get row "Deal ID" = Scalar v).
Proof.
  rewrite process_row_run. unfold identifier.
  destruct (Series_get row "Deal ID") as [v|vs].
  2:{ intros [= <- <-]. split; [done|]. by left. }
  destruct (blank v).
  { intros [= <- <-]. split; [done|]. right.
    split; [by rewrite app_nil_r|eauto]. }
  pose proof (get_deal_details_files net v tok (announce v w)) as [Hf Hs].
  destruct (get_deal_details net v tok (announce v w)) as [[api|e] w2];
    cbn [snd announce files sent] in Hf, Hs.
  - destruct (truthy api);
      [destruct (validate_deal row api) as [[|i issues]|e]|];
      intros [= <- <-]; (split; [done|right; split; [done|eauto]]).
  - intros [= <- <-]. split; [done|right; split; [done|eauto]].
Qed.

Lemma process_rows_effects net tok rows : ∀ results w r w',
  process_rows net tok results rows w = (r, w') →
  files w' = files w
  ∧ (∀ results', r = Ret results' →
                 sent w' = (sent w ++ requests_of tok rows)%list).
Proof.
  induction rows as [|row rows IH]; intros results w r w' H.
  - injection H as <- <-. split; [done|]. intros _ _.
    unfold requests_of, kept. by rewrite app_nil_r.
  - cbn [process_rows] in H. rewrite bind_run in H.
    destruct (process_row net tok results row w) as [[r1|e] w1] eqn:E1.
    + apply process_row_effects in E1 as [Hf1 Hs1].
      apply IH in H as [Hf Hs]. split; [congruence|].
      intros results' ->. rewrite (Hs _ eq_refl).
      destruct Hs1 as [(? & _)|[Hs1 _]]; [discriminate|].
      rewrite Hs1, <- app_assoc. f_equal.
      unfold requests_of, kept. rewrite filter_cons.
      destruct (blank (identifier row)) eqn:Hb.
      * by rewrite decide_False by done.
      * by rewrite decide_True by done.
    + apply process_row_effects in E1 as [Hf1 _]. injection H as <- <-.
      split; [done|]. intros ? [=].
Qed.



Lemma Series_get_position (cols cells : list pyval) key : ∀ i l v,
  list_find (λ l, l = PStr key) cols = Some (i, l) →
  Series_get (zip cols cells) key = Scalar v →
  v = default PNone (cells !! i).
Proof.
  unfold Series_get. revert cells.
  induction cols as [|c cols IH]; intros cells i l v; [done|].
  destruct cells as [|x cells].
  { cbn. intros _ [= <-]. by destruct i. }
  cbn [zip zip_with].
  destruct (decide (c = PStr key)) as [->|Hne].
  - rewrite filter_cons_True by done. csimpl.
    rewrite decide_True by done. intros [= <- <-].
    destruct (filter _ _); [by intros [= <-]|discriminate].
  - rewrite filter_cons_False by done. csimpl.
    rewrite decide_False by done.
    destruct (list_find _ cols) as [[i' l']|] eqn:E; [|discriminate].
    intros [= <- <-]. by apply (IH cells i' l').
Qed.

Lemma process_rows_scalars net tok rows : ∀ results w results' w',
  process_rows net tok results rows w = (Ret results', w') →
  Forall (λ row, ∃ v, Series_get row "Deal ID" = Scalar v) rows.
Proof.
  induction rows as [|row rows IH]; intros results w results' w' H;
    [constructor|].
  cbn [process_rows] in H. rewrite bind_run in H.
  destruct (process_row net tok results row w) as [[r1|e] w1] eqn:E1;
    [|discriminate].
  constructor; [|by eapply IH].
  rewrite process_row_run in E1.
  destruct (Series_get row "Deal ID"); [eauto|discriminate].
Qed.

Lemma identifiers_of_sheet df i l :
  list_find (λ l, l = PStr "Deal ID") (columns df) = Some (i, l) →
  Forall (λ row, ∃ v, Series_get row "Deal ID" = Scalar v) (iterrows df) →
  identifier <$> iterrows df = id_cells i df.
Proof.
  intros Hi. unfold iterrows, id_cells.
  induction (data df) as [|cells cellss IH]; [done|].
  cbn [fmap list_fmap]. intros H. apply Forall_cons in H as [[v Hv] H].
  f_equal; [|by apply IH].
  unfold identifier. rewrite Hv. by eapply Series_get_position.
Qed.

Lemma id_column_clean df :
  PStr "Deal ID" ∈ columns (clean_columns df) →
  ∃ i l, id_column df = Some i
         ∧ list_find (λ l, l = PStr "Deal ID") (columns (clean_columns df))
           = Some (i, l).
Proof.
  intros Hin.
  destruct (list_find_elem_of (λ l, l = PStr "Deal ID") _ _ Hin eq_refl)
    as [[i l] E].
  exists i, l. split; [|done]. unfold id_column.
  cbn [clean_columns columns] in E. by rewrite E.
Qed.

Lemma kept_identifiers rows vs :
  identifier <$> rows = vs →
  identifier <$> kept rows = filter (λ v, blank v = false) vs.
Proof.
  intros <-. unfold kept. induction rows as [|row rows IH]; [done|].
  cbn [fmap list_fmap]. rewrite !filter_cons.
  destruct (decide (blank (identifier row) = false)); cbn [fmap list_fmap];
    by rewrite IH.
Qed.

(** In a run that ends normally the identifier cells that [iterrows]
    hands to the loop are the cells of the identifier column. *)
Lemma normal_run_identifiers net read file tok out w w' :
  main net read file tok out w = (Ret (), w') →
  ∃ df w1 i os w2,
    read_sheet read file (reading file w) = (Ret df, w1)
    ∧ id_column df = Some i
    ∧ process_rows net tok [] (iterrows (clean_columns df)) w1 = (Ret os, w2)
    ∧ files w' = <[out := DataFrame_of_records os]> (files w2)
    ∧ sent w' = sent w2
    ∧ identifier <$> iterrows (clean_columns df) = id_cells i df.
Proof.
  intros H.
  assert (∃ df w1 os w2,
            read_sheet read file (reading file w) = (Ret df, w1)
            ∧ PStr "Deal ID" ∈ columns (clean_columns df)
            ∧ process_rows net tok [] (iterrows (clean_columns df)) w1
              = (Ret os, w2)
            ∧ files w' = <[out := DataFrame_of_records os]> (files w2)
            ∧ sent w' = sent w2) as (df & w1 & os & w2 & Hl & Hin & Hp & Hf & Hs).
  { revert H. unfold main. rewrite bind_run. unfold print at 1.
    fold (reading file w). rewrite bind_run.
    destruct (read_sheet read file (reading file w)) as [[df|e] w1];
      [|discriminate].
    cbn zeta. destruct (bool_decide _) eqn:Hd; cbn [negb].
    2:{ rewrite bind_run. unfold print at 1. discriminate. }
    apply bool_decide_eq_true in Hd. rewrite bind_run.
    destruct (process_rows net tok [] (iterrows (clean_columns df)) w1)
      as [[os|e] w2] eqn:Hp; [|discriminate].
    rewrite bind_run. unfold to_excel at 1. unfold print. intros [= <-].
    exists df, w1, os, w2. repeat split; done. }
  destruct (id_column_clean df Hin) as (i & l & Hi & Hfind).
  exists df, w1, i, os, w2. repeat split; try done.
  apply (identifiers_of_sheet (clean_columns df) i l Hfind).
  by eapply process_rows_scalars.
Qed.

Lemma identified_iff v : identified v ↔ blank v = false.
Proof.
  unfold identified, blank. rewrite orb_false_iff, bool_decide_eq_false.
  destruct (isna v); intuition congruence.
Qed.

Lemma kept_identified rows vs :
  identifier <$> rows = vs → identifier <$> kept rows = filter identified vs.
Proof.
  intros H. rewrite (kept_identifiers _ _ H). apply list_filter_iff.
  intros v. by rewrite identified_iff.
Qed.

(** X18: a run that ends normally has sent exactly one request for each
    row of the sheet whose identifier cell is neither missing nor empty
    once trimmed, in the order of the rows and none else: the request for
    that cell, with the token of the run.  The cell is the one under the
    first column whose cleaned label is "Deal ID", as [df.values] holds
    it. *)
Theorem one_request_per_kept_row net read file tok out w w' :
  main net read file tok out w = (Ret (), w') →
  ∃ df w1 i,
    read_sheet read file (reading file w) = (Ret df, w1)
    ∧ id_column df = Some i
    ∧ sent w'
      = (sent w ++ requests_for tok (filter identified (id_cells i df)))%list.
Proof.
  intros H.
  apply normal_run_identifiers in H
    as (df & w1 & i & os & w2 & Hl & Hi & Hp & Hf & Hs & Hids).
  exists df, w1, i. split; [done|]. split; [done|].
  pose proof (read_sheet_quiet _ _ _ _ _ Hl) as [Hs1 _].
  cbn [reading sent] in Hs1.
  apply process_rows_effects in Hp as [_ Hs2].
  rewrite Hs, (Hs2 _ eq_refl), Hs1. f_equal.
  unfold requests_for, requests_of.
  rewrite <- (kept_identified _ _ Hids). by rewrite <- list_fmap_compose.
Qed.

Lemma one_request_per_kept_row_witness :
  ∃ df w1 i,
    read_sheet example_reader "deals.xlsx" (reading "deals.xlsx" w0)
    = (Ret df, w1)
    ∧ id_column df = Some i
    ∧ sent example_run.2
      = (sent w0
           ++ requests_for "token" (filter identified (id_cells i df)))%list.
Proof.
  apply (one_request_per_kept_row example_net example_reader
           "deals.xlsx" "token" "report.xlsx" w0 example_run.2).
  vm_compute. reflexivity.
Defined.

(** X20: in a run that ends normally the report has, in the order of the
    sheet, exactly one row for each row of the sheet whose identifier
    cell is neither missing (None, nan, NaT, or no cell) nor empty once
    trimmed; the report row starts with that cell and carries one of the
    three statuses.  The identifier cell is the one under the first column
    whose cleaned label is "Deal ID", as [df.values] holds it. *)
Theorem report_rows_follow_the_sheet net read file tok out w w' :
  main net read file tok out w = (Ret (), w') →
  ∃ df w1 i report,
    read_sheet read file (reading file w) = (Ret df, w1)
    ∧ id_column df = Some i
    ∧ files w' !! out = Some report
    ∧ Forall2 (λ v cells, ∃ st c, cells = [v; PStr st; PStr c]
                                  ∧ st ∈ statuses)
              (filter identified (id_cells i df))
              (data report).
Proof.
  intros H.
  apply normal_run_identifiers in H
    as (df & w1 & i & os & w2 & Hl & Hi & Hp & Hf & _ & Hids).
  exists df, w1, i, (DataFrame_of_records os). split; [done|].
  split; [done|]. split; [by rewrite Hf, lookup_insert_eq|].
  apply process_rows_ret in Hp as (os' & -> & Hos). cbn [app] in *.
  assert (Forall is_outcome os') as Hio.
  { clear Hf Hl Hids.
    induction Hos as [|row o rows os2 Ho _ IH]; [constructor|].
    constructor; [by eapply outcome_of_is_outcome|done]. }
  rewrite (proj1 (report_of_outcomes os' Hio)).
  rewrite <- (kept_identified _ _ Hids).
  apply Forall2_fmap. eapply Forall2_impl; [exact Hos|].
  intros row o (st & c & -> & Hst). by exists st, c.
Qed.

Lemma report_rows_follow_the_sheet_witness :
  ∃ df w1 i report,
    read_sheet example_reader "deals.xlsx" (reading "deals.xlsx" w0)
    = (Ret df, w1)
    ∧ id_column df = Some i
    ∧ files example_run.2 !! "report.xlsx" = Some report
    ∧ Forall2 (λ v cells, ∃ st c, cells = [v; PStr st; PStr c]
                                  ∧ st ∈ statuses)
              (filter identified (id_cells i df))
              (data report).
Proof.
  apply (report_rows_follow_the_sheet example_net example_reader
           "deals.xlsx" "token" "report.xlsx" w0 example_run.2).
  vm_compute. reflexivity.
Defined.








